(** * AI Photo Restoration Cascade: the orchestration loop and its Gateway calls

    A shallow embedding of [App.tsx] (the React component that drives a run)
    and of [services/geminiService.ts] (the three Gateway operations), with
    the properties of the repository's specification stated over it.

    JavaScript values are an inductive type, numbers are IEEE 754 binary64
    ([float]), strings are [string] (one character per code unit, code units
    below 256), objects are association lists in insertion order.  An [async]
    function is a state transformer over a [World] that ends in a value, in a
    thrown error, or never settles. *)

From Stdlib Require Import String Ascii List Bool Arith Lia DecimalString.
From Stdlib Require Import Floats.
Import ListNotations.
Open Scope string_scope.

Set Implicit Arguments.
Set Warnings "-register-all".

(* ================================================================== *)
(** ** JavaScript strings *)
(* ================================================================== *)

Module JsString.

(** The double quote, which the prompt templates put around the texts they
    interpolate. *)
Definition dq : string := String (ascii_of_nat 34) EmptyString.

(** [String.prototype.split] with a separator of one code unit. *)
Fixpoint split (sep : ascii) (s : string) : list string :=
  match s with
  | EmptyString => [EmptyString]
  | String c rest =>
      if Ascii.eqb c sep then EmptyString :: split sep rest
      else match split sep rest with
           | seg :: segs => String c seg :: segs
           | [] => [String c EmptyString]
           end
  end.

(** White space and line terminators of ECMAScript among the code units
    below 256: TAB, LF, VT, FF, CR, SP and NBSP. *)
Definition is_white (c : ascii) : bool :=
  let n := nat_of_ascii c in
  ((9 <=? n)%nat && (n <=? 13)%nat) || (n =? 32)%nat || (n =? 160)%nat.

Fixpoint trimStart (s : string) : string :=
  match s with
  | EmptyString => EmptyString
  | String c rest => if is_white c then trimStart rest else s
  end.

Fixpoint trimEnd (s : string) : string :=
  match s with
  | EmptyString => EmptyString
  | String c rest =>
      match trimEnd rest with
      | EmptyString => if is_white c then EmptyString else String c EmptyString
      | kept => String c kept
      end
  end.

(** [String.prototype.trim]. *)
Definition trim (s : string) : string := trimEnd (trimStart s).

(** Number-to-string of an array index or a counter. *)
Definition of_nat (n : nat) : string := NilEmpty.string_of_uint (Nat.to_uint n).

End JsString.

(* ================================================================== *)
(** ** JavaScript values, objects and errors *)
(* ================================================================== *)

Inductive js_value : Type :=
| JUndefined
| JNull
| JBool (b : bool)
| JNum (f : float)
| JStr (s : string)
| JArr (items : list js_value)
| JObj (props : list (string * js_value)).

(** An object is its own enumerable properties, in insertion order. *)
Definition js_object : Type := list (string * js_value).

(** A thrown [Error] object: its class name and its [message]. *)
Record js_error : Type := mkError { err_name : string; err_message : string }.

Definition Error (msg : string) : js_error := mkError "Error" msg.
Definition TypeError (msg : string) : js_error := mkError "TypeError" msg.

Module Obj.

Fixpoint lookup (k : string) (o : js_object) : option js_value :=
  match o with
  | [] => None
  | (k', v) :: rest => if String.eqb k k' then Some v else lookup k rest
  end.

(** Defining a property: an existing key keeps its place and takes the new
    value, a new key goes last. *)
Fixpoint set (k : string) (v : js_value) (o : js_object) : js_object :=
  match o with
  | [] => [(k, v)]
  | (k', v') :: rest =>
      if String.eqb k k' then (k', v) :: rest else (k', v') :: set k v rest
  end.

(** Reading a property of an object: a missing key reads [undefined].  Used
    for keys that no built-in prototype defines. *)
Definition get (k : string) (o : js_object) : js_value :=
  match lookup k o with
  | Some v => v
  | None => JUndefined
  end.

Fixpoint indexed {A : Type} (f : A -> js_value) (i : nat) (l : list A)
  : js_object :=
  match l with
  | [] => []
  | x :: rest => (JsString.of_nat i, f x) :: indexed f (S i) rest
  end.

Definition chars (s : string) : list ascii := list_ascii_of_string s.

(** The own enumerable properties that an object spread [{...v}] copies:
    those of an object, the elements of an array and the characters of a
    string under their indices, nothing for the other values. *)
Definition spread (v : js_value) : js_object :=
  match v with
  | JObj props => props
  | JArr items => indexed (fun x => x) 0 items
  | JStr s => indexed (fun c => JStr (String c EmptyString)) 0 (chars s)
  | _ => []
  end.

End Obj.

(** [v.k] for a key [k] that is neither an index, [length], nor a property of
    a built-in prototype ([goal], [step]): reading it from [null] or
    [undefined] throws, an object answers with its own property, and every
    other value with [undefined].  The messages are those of V8. *)
Definition get_property (v : js_value) (k : string) : js_error + js_value :=
  match v with
  | JUndefined =>
      inl (TypeError ("Cannot read properties of undefined (reading '" ++ k ++ "')"))
  | JNull =>
      inl (TypeError ("Cannot read properties of null (reading '" ++ k ++ "')"))
  | JObj props => inr (Obj.get k props)
  | _ => inr JUndefined
  end.

(* ================================================================== *)
(** ** The Gateway: requests and responses of [ai.models.generateContent] *)
(* ================================================================== *)

(** [inlineData]: a base64 payload and its media type.  [data] is [None] where
    the JavaScript value is [undefined]. *)
Record Blob : Type := mkBlob { data : option string; mimeType : option string }.

(** A content part.  A field is [None] when the property is absent; a property
    that is present holds a value of its declared type. *)
Record Part : Type := mkPart { part_text : option string; part_inlineData : option Blob }.

Definition textPart (t : string) : Part := mkPart (Some t) None.

Inductive Schema : Type :=
| SchemaArray (items : Schema)
| SchemaObject (properties : list (string * Schema)) (required : list string)
| SchemaInteger (description : string)
| SchemaString (description : string).

Inductive Modality : Type := IMAGE | TEXT | AUDIO.

Record GenerateContentConfig : Type := mkConfig {
  responseMimeType : option string;
  responseSchema : option Schema;
  responseModalities : option (list Modality)
}.

Record GenerateContentParameters : Type := mkRequest {
  model : string;
  contents : list Part;
  config : option GenerateContentConfig
}.

Record Content : Type := mkContent { parts : option (list Part) }.
Record Candidate : Type := mkCandidate { content : option Content }.

(** What the code reads of a response: the [text] accessor and [candidates]. *)
Record GenerateContentResponse : Type := mkResponse {
  resp_text : option string;
  candidates : option (list Candidate)
}.

(** The client object built from the API key. *)
Record GoogleGenAI : Type := mkClient { apiKey : string }.

(** An uploaded file: its declared media type, and what
    [FileReader.readAsDataURL] leaves in [reader.result] when loading ends:
    the data URL, or [None] ([null]) when the file could not be read. *)
Record File : Type := mkFile { file_type : string; reader_result : option string }.

(* ================================================================== *)
(** ** The component state and the world around it *)
(* ================================================================== *)

Module AppStatus.
Inductive t : Type := idle | planning | restoring | done | error.
End AppStatus.

(** A [RestorationStep] as the loop builds it: an object literal that spreads
    the plan step and then defines [prompt], [beforeImage] and [afterImage]. *)
Definition RestorationStep : Type := js_object.

(** The [useState] cells of [App]. *)
Record AppState : Type := mkApp {
  imageFile : option File;
  imagePreview : option string;
  userPrompt : string;
  status : AppStatus.t;
  error : option string;
  restorationSteps : list RestorationStep;
  progressMessage : string
}.

(** One call of a state setter. *)
Inductive setter_call : Type :=
| SetImageFile (f : option File)
| SetImagePreview (p : option string)
| SetUserPrompt (t : string)
| SetStatus (s : AppStatus.t)
| SetError (e : option string)
| SetRestorationSteps (l : list RestorationStep)
| SetProgressMessage (m : string).

(** Everything a run reads or writes: the state cells, [process.env.API_KEY],
    the cached client [aiRef.current], the requests sent to the Gateway so far,
    what went to [console.error], and the setter calls in the order made. *)
Record World : Type := mkWorld {
  app : AppState;
  API_KEY : option string;
  aiRef : option GoogleGenAI;
  requests : list GenerateContentParameters;
  console : list (option string * js_error);
  trace : list setter_call
}.

Definition apply_setter (c : setter_call) (a : AppState) : AppState :=
  match c with
  | SetImageFile f =>
      mkApp f (imagePreview a) (userPrompt a) (status a) (error a)
            (restorationSteps a) (progressMessage a)
  | SetImagePreview p =>
      mkApp (imageFile a) p (userPrompt a) (status a) (error a)
            (restorationSteps a) (progressMessage a)
  | SetUserPrompt t =>
      mkApp (imageFile a) (imagePreview a) t (status a) (error a)
            (restorationSteps a) (progressMessage a)
  | SetStatus s =>
      mkApp (imageFile a) (imagePreview a) (userPrompt a) s (error a)
            (restorationSteps a) (progressMessage a)
  | SetError e =>
      mkApp (imageFile a) (imagePreview a) (userPrompt a) (status a) e
            (restorationSteps a) (progressMessage a)
  | SetRestorationSteps l =>
      mkApp (imageFile a) (imagePreview a) (userPrompt a) (status a) (error a)
            l (progressMessage a)
  | SetProgressMessage m =>
      mkApp (imageFile a) (imagePreview a) (userPrompt a) (status a) (error a)
            (restorationSteps a) m
  end.

(** A setter writes its cell and is recorded. *)
Definition call_setter (c : setter_call) (w : World) : World :=
  mkWorld (apply_setter c (app w)) (API_KEY w) (aiRef w) (requests w)
          (console w) (trace w ++ [c]).

(* ================================================================== *)
(** ** Asynchronous computations *)
(* ================================================================== *)

(** How an [async] call ends: with a value, with a thrown error (a rejected
    promise), or never ([Pending]: a promise nobody resolves). *)
Inductive completion (A : Type) : Type :=
| Returned (a : A)
| Threw (e : js_error)
| Pending.

Arguments Returned {A} a.
Arguments Threw {A} e.
Arguments Pending {A}.

Definition Async (A : Type) : Type := World -> completion A * World.

Definition ret {A : Type} (a : A) : Async A := fun w => (Returned a, w).

Definition throw {A : Type} (e : js_error) : Async A := fun w => (Threw e, w).

Definition bind {A B : Type} (m : Async A) (k : A -> Async B) : Async B :=
  fun w =>
    match m w with
    | (Returned a, w') => k a w'
    | (Threw e, w') => (Threw e, w')
    | (Pending, w') => (Pending, w')
    end.

(** [try { body } catch (e) { handler }]. *)
Definition try_catch {A : Type} (body : Async A) (handler : js_error -> Async A)
  : Async A :=
  fun w =>
    match body w with
    | (Threw e, w') => handler e w'
    | r => r
    end.

(** Synchronous code that may throw. *)
Definition lift {A : Type} (r : js_error + A) : Async A :=
  match r with
  | inl e => throw e
  | inr a => ret a
  end.

Declare Scope async_scope.
Delimit Scope async_scope with async.
Notation "x <- m ;; k" := (bind m (fun x => k))
  (at level 100, m at next level, right associativity) : async_scope.
Notation "m ;;; k" := (bind m (fun _ => k))
  (at level 100, right associativity) : async_scope.
Open Scope async_scope.

Definition set_state (c : setter_call) : Async unit :=
  fun w => (Returned tt, call_setter c w).

Definition console_error (label : option string) (e : js_error) : Async unit :=
  fun w =>
    (Returned tt,
     mkWorld (app w) (API_KEY w) (aiRef w) (requests w)
             (console w ++ [(label, e)]) (trace w)).

(* ================================================================== *)
(** ** Concrete environments for the examples *)
(* ================================================================== *)

Module Sample.

Import JsString.

(** The JSON text of the plan of the specification's scenario: an array of
    two objects, steps 1 and 2, goals Remove scratches and Colorize. *)
Definition planText : string :=
  "[{" ++ dq ++ "step" ++ dq ++ ":1," ++ dq ++ "goal" ++ dq ++ ":"
  ++ dq ++ "Remove scratches" ++ dq ++ "},{"
  ++ dq ++ "step" ++ dq ++ ":2," ++ dq ++ "goal" ++ dq ++ ":"
  ++ dq ++ "Colorize" ++ dq ++ "}]".

Definition plan : list js_value :=
  [JObj [("step", JNum 1%float); ("goal", JStr "Remove scratches")];
   JObj [("step", JNum 2%float); ("goal", JStr "Colorize")]].

(** The same two objects in the other order: steps 2 and 1. *)
Definition swappedText : string :=
  "[{" ++ dq ++ "step" ++ dq ++ ":2," ++ dq ++ "goal" ++ dq ++ ":"
  ++ dq ++ "Colorize" ++ dq ++ "},{"
  ++ dq ++ "step" ++ dq ++ ":1," ++ dq ++ "goal" ++ dq ++ ":"
  ++ dq ++ "Remove scratches" ++ dq ++ "}]".

Definition swapped : list js_value :=
  [JObj [("step", JNum 2%float); ("goal", JStr "Colorize")];
   JObj [("step", JNum 1%float); ("goal", JStr "Remove scratches")]].

(** [JSON.parse] on the response texts that the examples hand to it; on any
    other text this table answers with a [SyntaxError]. *)
Definition JSON_parse (t : string) : js_error + js_value :=
  if String.eqb t planText then inr (JArr plan)
  else if String.eqb t swappedText then inr (JArr swapped)
  else if String.eqb t "[{}]" then inr (JArr [JObj []])
  else if String.eqb t "[]" then inr (JArr [])
  else inl (mkError "SyntaxError" "Unexpected token in JSON").

(** The examples interpolate strings only, which need no further
    conversion; this is the conversion of a plain object. *)
Definition ToString_other (v : js_value) : js_error + string :=
  inr "[object Object]".

(** A Gateway that answers its n-th request with the n-th entry of a script
    and rejects any request after the script has run out. *)
Definition scripted (answers : list (completion GenerateContentResponse))
    (ai : GoogleGenAI) (received : list GenerateContentParameters)
    (request : GenerateContentParameters)
  : completion GenerateContentResponse :=
  nth (length received) answers (Threw (Error "503 Service Unavailable")).

Definition textResponse (t : string) : GenerateContentResponse :=
  mkResponse (Some t)
    (Some [mkCandidate (Some (mkContent (Some [textPart t])))]).

Definition imagePart (payload : string) : Part :=
  mkPart None (Some (mkBlob (Some payload) (Some "image/png"))).

Definition imageResponse (payload : string) : GenerateContentResponse :=
  mkResponse None
    (Some [mkCandidate (Some (mkContent (Some [imagePart payload])))]).


Definition photo : File :=
  mkFile "image/jpeg" (Some "data:image/jpeg;base64,/9j/4AAQSkZJRg==").

(** The state after the user has picked [photo] and its preview has loaded,
    with the API key configured. *)
Definition ready : World :=
  mkWorld
    (mkApp (Some photo) (reader_result photo) "" AppStatus.idle None [] "")
    (Some "test-key") None [] [] [].

(** The same state without an API key. *)
Definition unconfigured : World :=
  mkWorld (app ready) None None [] [] [].

(** No file has been picked. *)
Definition empty : World :=
  mkWorld (mkApp None None "" AppStatus.idle None [] "")
    (Some "test-key") None [] [] [].

(** The scenario of the specification: a plan of two steps, a prompt and an
    edited image for each. *)
Definition twoSteps : list (completion GenerateContentResponse) :=
  [Returned (textResponse planText);
   Returned (textResponse "fix scratches...");
   Returned (imageResponse "QUJD");
   Returned (textResponse "add color...");
   Returned (imageResponse "REVG")].

(** The edit call of the second step answers without an image. *)
Definition secondEditFails : list (completion GenerateContentResponse) :=
  [Returned (textResponse planText);
   Returned (textResponse "fix scratches...");
   Returned (imageResponse "QUJD");
   Returned (textResponse "add color...");
   Returned (textResponse "Sorry, I cannot help.")].

(** The planning call answers with an empty array. *)
Definition emptyPlan : list (completion GenerateContentResponse) :=
  [Returned (textResponse "[]")].

(** The plan numbers its steps 2 and 1. *)
Definition swappedSteps : list (completion GenerateContentResponse) :=
  [Returned (textResponse swappedText);
   Returned (textResponse "add color...");
   Returned (imageResponse "QUJD");
   Returned (textResponse "fix scratches...");
   Returned (imageResponse "REVG")].

(** A second file, a PNG, picked after [photo]. *)
Definition second : File :=
  mkFile "image/png" (Some "data:image/png;base64,iVBORw0KGgo=").

(** A file that cannot be read, picked with the API key configured. *)
Definition unreadable : File := mkFile "image/jpeg" None.

Definition unreadablePicked : World :=
  mkWorld (mkApp (Some unreadable) None "" AppStatus.idle None [] "")
    (Some "test-key") None [] [] [].

(** [photo] has been picked and its preview has not loaded yet. *)
Definition noPreview : World :=
  mkWorld (mkApp (Some photo) None "" AppStatus.idle None [] "")
    (Some "test-key") None [] [] [].

End Sample.

(* ================================================================== *)
(** ** services/geminiService.ts *)
(* ================================================================== *)

Section WithEnvironment.

(** [JSON.parse] on a text: the parsed value, or the [SyntaxError] thrown. *)
Variable JSON_parse : string -> js_error + js_value.

(** The string conversion of a number, an array or an object
    ([Number::toString], [Array.prototype.join], and for an object the call
    of its [toString], which throws when that is not callable). *)
Variable ToString_other : js_value -> js_error + string.

(** The remote Gateway behind [ai.models.generateContent]: given the client,
    the requests it has received so far and a new request, how the call
    ends. *)
Variable generateContent :
  GoogleGenAI -> list GenerateContentParameters -> GenerateContentParameters ->
  completion GenerateContentResponse.

Definition nl : string := String (ascii_of_nat 10) EmptyString.

(** The string that a template literal interpolates for a value. *)
Definition ToString (v : js_value) : js_error + string :=
  match v with
  | JUndefined => inr "undefined"
  | JNull => inr "null"
  | JBool true => inr "true"
  | JBool false => inr "false"
  | JStr s => inr s
  | _ => ToString_other v
  end.

(** [await ai.models.generateContent(request)]: the request reaches the
    Gateway, which answers, fails, or stays silent. *)
Definition models_generateContent (ai : GoogleGenAI)
    (request : GenerateContentParameters) : Async GenerateContentResponse :=
  fun w =>
    (generateContent ai (requests w) request,
     mkWorld (app w) (API_KEY w) (aiRef w) (requests w ++ [request])
             (console w) (trace w)).

(** The promise resolves from [onloadend] with [reader.result.split(',')[1]];
    when the read failed [reader.result] is [null], the callback throws and
    the promise is never resolved. *)
Definition fileToGenerativePart (file : File) : Async Part :=
  match reader_result file with
  | None => fun w => (Pending, w)
  | Some result =>
      ret (mkPart None
             (Some (mkBlob (nth_error (JsString.split "," result) 1)
                           (Some (file_type file)))))
  end.

(** [base64Data] is [None] for [null]; [mimeType] is [None] when the caller
    omits the argument, and then defaults to ['image/png']. *)
Definition base64ToGenerativePart (base64Data : option string)
    (mimeType : option string) : js_error + Part :=
  let mimeType := match mimeType with Some m => m | None => "image/png" end in
  match base64Data with
  | None => inl (TypeError "Cannot read properties of null (reading 'split')")
  | Some s =>
      inr (mkPart None
             (Some (mkBlob (nth_error (JsString.split "," s) 1) (Some mimeType))))
  end.

Definition planSchema : Schema :=
  SchemaArray
    (SchemaObject
       [("step", SchemaInteger "The step number, starting from 1.");
        ("goal", SchemaString "A clear, concise goal for this restoration step.")]
       ["step"; "goal"]).

Definition planPrompt (userPrompt : string) : string :=
  "You are an expert photo restoration specialist. Analyze the provided image and the user's request: "
  ++ JsString.dq ++ userPrompt ++ JsString.dq ++ ". " ++ nl
  ++ "    Create a dedicated, step-by-step plan to restore this photo to a full-color, high-quality image as if it was taken with a modern DSLR. " ++ nl
  ++ "    The plan should have between 2 and 4 distinct steps. For each step, define a clear goal." ++ nl
  ++ "    ".

Definition generateRestorationPlan (ai : GoogleGenAI) (imageFile : File)
    (userPrompt : string) : Async (list js_value) :=
  imagePart <- fileToGenerativePart imageFile ;;
  let fullPrompt := planPrompt userPrompt in
  response <-
    models_generateContent ai
      (mkRequest "gemini-2.5-pro" [textPart fullPrompt; imagePart]
         (Some (mkConfig (Some "application/json") (Some planSchema) None))) ;;
  try_catch
    (plan <- lift (JSON_parse (match resp_text response with
                               | Some t => t
                               | None => "undefined"
                               end)) ;;
     match plan with
     | JArr (first :: others) => ret (first :: others)
     | _ => throw (Error "Invalid plan format received from API.")
     end)
    (fun e =>
       console_error (Some "Failed to parse restoration plan:") e ;;;
       throw (Error "Could not generate a valid restoration plan. The AI's response was not in the expected format.")).

Definition stepPromptText (stepGoal userPrompt : string) : string :=
  "You are an expert prompt engineer for generative AI image models. Based on the provided image and the restoration goal: "
  ++ JsString.dq ++ stepGoal ++ JsString.dq
  ++ ", create a concise but detailed prompt for the Gemini 2.5 Flash Image model. " ++ nl
  ++ "    The prompt must instruct the model to edit the image to achieve the goal while preserving the original composition, subject, and key features." ++ nl
  ++ "    If you see specific flaws like scratches, dust, or missing parts, include instructions to fix them." ++ nl
  ++ "    Where relevant, incorporate the user's original request: "
  ++ JsString.dq ++ userPrompt ++ JsString.dq ++ "." ++ nl
  ++ "    The final output should be ONLY the prompt string, with no extra text or formatting." ++ nl
  ++ "    ".

(** [stepGoal] is declared a string and is whatever [planStep.goal] holds. *)
Definition generateStepPrompt (ai : GoogleGenAI)
    (currentImageBase64 : option string) (stepGoal : js_value)
    (userPrompt : string) : Async string :=
  imagePart <- lift (base64ToGenerativePart currentImageBase64 None) ;;
  goalText <- lift (ToString stepGoal) ;;
  let fullPrompt := stepPromptText goalText userPrompt in
  response <-
    models_generateContent ai
      (mkRequest "gemini-2.5-pro" [textPart fullPrompt; imagePart] None) ;;
  match resp_text response with
  | Some t => ret (JsString.trim t)
  | None =>
      throw (TypeError "Cannot read properties of undefined (reading 'trim')")
  end.

(** [response.candidates?.[0]?.content?.parts[0]]: the optional chain ends
    in [undefined] when [candidates], its first element or [content] is
    missing and when [parts] is empty; [parts] itself is read without [?.],
    so a content without [parts] throws. *)
Definition firstPartOf (response : GenerateContentResponse)
  : js_error + option Part :=
  match candidates response with
  | Some (candidate :: _) =>
      match content candidate with
      | Some c =>
          match parts c with
          | Some ps => inr (nth_error ps 0)
          | None =>
              inl (TypeError "Cannot read properties of undefined (reading '0')")
          end
      | None => inr None
      end
  | _ => inr None
  end.

Definition executeImageStep (ai : GoogleGenAI)
    (currentImageBase64 : option string) (stepPrompt : string) : Async string :=
  imagePart <- lift (base64ToGenerativePart currentImageBase64 None) ;;
  let textPart := textPart stepPrompt in
  response <-
    models_generateContent ai
      (mkRequest "gemini-2.5-flash-image" [textPart; imagePart]
         (Some (mkConfig None None (Some [IMAGE])))) ;;
  firstPart <- lift (firstPartOf response) ;;
  match firstPart with
  | Some (mkPart _ (Some inlineData)) =>
      let base64Data := match data inlineData with
                        | Some d => d
                        | None => "undefined"
                        end in
      ret ("data:image/png;base64," ++ base64Data)
  | _ => throw (Error "Image generation failed or did not return an image.")
  end.

(* ================================================================ *)
(** ** App.tsx *)
(* ================================================================ *)

(** [!process.env.API_KEY]: the variable is unset or empty. *)
Definition falsy (s : option string) : bool :=
  match s with
  | None => true
  | Some t => String.eqb t ""
  end.

Definition getAiClient : Async GoogleGenAI :=
  fun w =>
    match aiRef w with
    | Some ai => (Returned ai, w)
    | None =>
        if falsy (API_KEY w) then
          (Threw (Error "API_KEY environment variable not set"), w)
        else
          let ai := mkClient (match API_KEY w with Some k => k | None => "" end) in
          (Returned ai,
           mkWorld (app w) (API_KEY w) (Some ai) (requests w) (console w) (trace w))
    end.

Definition resetState : Async unit :=
  set_state (SetStatus AppStatus.idle) ;;;
  set_state (SetError None) ;;;
  set_state (SetRestorationSteps []) ;;;
  set_state (SetProgressMessage "").

Definition handleStartOver : Async unit :=
  set_state (SetImageFile None) ;;;
  set_state (SetImagePreview None) ;;;
  set_state (SetUserPrompt "") ;;;
  resetState.

(** [e.target.files?.[0]] is [None] when the picker was cancelled.  The
    reader finishes later, see [reader_onloadend]. *)
Definition handleFileChange (file : option File) : Async unit :=
  match file with
  | Some f => set_state (SetImageFile (Some f)) ;;; resetState
  | None => ret tt
  end.

(** The [onloadend] callback that [handleFileChange] installs. *)
Definition reader_onloadend (file : File) : Async unit :=
  set_state (SetImagePreview (reader_result file)).

Definition promptProgress (index totalSteps : nat) (goal : string) : string :=
  "Step " ++ JsString.of_nat (index + 1) ++ "/" ++ JsString.of_nat totalSteps
  ++ ": Generating prompt for " ++ JsString.dq ++ goal ++ JsString.dq ++ "...".

Definition applyProgress (index totalSteps : nat) (goal : string) : string :=
  "Step " ++ JsString.of_nat (index + 1) ++ "/" ++ JsString.of_nat totalSteps
  ++ ": Applying AI restoration for " ++ JsString.dq ++ goal ++ JsString.dq ++ "...".

(** [currentImageBase64] as a value: [imagePreview!] is [null] while no
    preview has been loaded. *)
Definition image_value (image : option string) : js_value :=
  match image with
  | Some s => JStr s
  | None => JNull
  end.

(** [{...planStep, prompt, beforeImage, afterImage}]. *)
Definition newStepOf (planStep : js_value) (stepPrompt : string)
    (currentImageBase64 : option string) (newImageBase64 : string)
  : RestorationStep :=
  Obj.set "afterImage" (JStr newImageBase64)
    (Obj.set "beforeImage" (image_value currentImageBase64)
       (Obj.set "prompt" (JStr stepPrompt) (Obj.spread planStep))).

(** One iteration of the [for ... of plan.entries()] loop.  It returns the
    loop's two variables, [currentImageBase64] and [completedSteps], as the
    iteration leaves them. *)
Definition loop_body (ai : GoogleGenAI) (userPrompt : string) (totalSteps : nat)
    (index : nat) (planStep : js_value)
    (currentImageBase64 : option string) (completedSteps : list RestorationStep)
  : Async (option string * list RestorationStep) :=
  goal <- lift (get_property planStep "goal") ;;
  goalText <- lift (ToString goal) ;;
  set_state (SetProgressMessage (promptProgress index totalSteps goalText)) ;;;
  goal <- lift (get_property planStep "goal") ;;
  stepPrompt <- generateStepPrompt ai currentImageBase64 goal userPrompt ;;
  goal <- lift (get_property planStep "goal") ;;
  goalText <- lift (ToString goal) ;;
  set_state (SetProgressMessage (applyProgress index totalSteps goalText)) ;;;
  newImageBase64 <- executeImageStep ai currentImageBase64 stepPrompt ;;
  let newStep := newStepOf planStep stepPrompt currentImageBase64 newImageBase64 in
  let completedSteps := (completedSteps ++ [newStep])%list in
  set_state (SetRestorationSteps completedSteps) ;;;
  ret (Some newImageBase64, completedSteps).

(** The loop over the remaining plan steps, [index] being the position of
    the first of them. *)
Fixpoint restore_loop (ai : GoogleGenAI) (userPrompt : string) (totalSteps : nat)
    (index : nat) (plan : list js_value)
    (currentImageBase64 : option string) (completedSteps : list RestorationStep)
  : Async (option string * list RestorationStep) :=
  match plan with
  | [] => ret (currentImageBase64, completedSteps)
  | planStep :: rest =>
      vars <- loop_body ai userPrompt totalSteps index planStep
                currentImageBase64 completedSteps ;;
      restore_loop ai userPrompt totalSteps (S index) rest (fst vars) (snd vars)
  end.

Definition unknownError : string :=
  "An unknown error occurred during the restoration process.".

(** The callback closes over [imageFile], [userPrompt] and [imagePreview] as
    they are when it is invoked. *)
Definition handleRestore : Async unit :=
  fun w =>
    let imageFile := imageFile (app w) in
    let userPrompt := userPrompt (app w) in
    let imagePreview := imagePreview (app w) in
    match imageFile with
    | None => (Returned tt, w)
    | Some imageFile =>
        (resetState ;;;
         set_state (SetStatus AppStatus.planning) ;;;
         set_state (SetProgressMessage "Generating restoration plan...") ;;;
         try_catch
           (ai <- getAiClient ;;
            plan <- generateRestorationPlan ai imageFile userPrompt ;;
            set_state (SetStatus AppStatus.restoring) ;;;
            let totalSteps := length plan in
            restore_loop ai userPrompt totalSteps 0 plan imagePreview [] ;;;
            set_state (SetStatus AppStatus.done) ;;;
            set_state (SetProgressMessage "Restoration complete!"))
           (fun e =>
              console_error None e ;;;
              set_state (SetError (Some (if String.eqb (err_message e) ""
                                         then unknownError
                                         else err_message e))) ;;;
              set_state (SetStatus AppStatus.error))) w
    end.

(** The results sequences that a run has published, oldest first. *)
Fixpoint published (calls : list setter_call) : list (list RestorationStep) :=
  match calls with
  | [] => []
  | SetRestorationSteps l :: rest => l :: published rest
  | _ :: rest => published rest
  end.

(** [onChange] of the instructions field. *)
Definition handleUserPromptChange (value : string) : Async unit :=
  set_state (SetUserPrompt value).

Definition isProcessing (a : AppState) : bool :=
  match status a with
  | AppStatus.planning => true
  | AppStatus.restoring => true
  | _ => false
  end.

(** Truthiness of a value that is a string or [null]. *)
Definition truthy (s : option string) : bool := negb (falsy s).

Definition dropzoneBg (a : AppState) : string :=
  match imagePreview a with
  | Some preview => if truthy (Some preview) then "url(" ++ preview ++ ")" else "none"
  | None => "none"
  end.

(** The props of one [StepCard]. *)
Record StepCardProps : Type := mkCard { card_step : RestorationStep; card_isLast : bool }.

(** [restorationSteps.map((step, index) => ...)], [total] being
    [restorationSteps.length]. *)
Fixpoint stepCards (index total : nat) (steps : list RestorationStep)
  : list StepCardProps :=
  match steps with
  | [] => []
  | step :: rest =>
      mkCard step (index =? total - 1)%nat :: stepCards (S index) total rest
  end.

(** What [App] renders, as far as it depends on the state: which controls
    and panels are present, and what they show. *)
Record View : Type := mkView {
  dropzoneBackground : string;
  (** the label of the upload area *)
  uploadLabel : string;
  (** [disabled] of the file input and of the instructions field *)
  fileInputDisabled : bool;
  promptValue : string;
  promptDisabled : bool;
  (** the Restore Photo button: [None] when it is not rendered, else its
      [disabled] attribute *)
  restoreButton : option bool;
  (** whether the Start Over button is rendered *)
  startOverButton : bool;
  (** the Processing panel with its progress text *)
  processingPanel : option string;
  (** the error banner with its message *)
  errorBanner : option string;
  stepCardList : list StepCardProps;
  (** the panel that says where the restoration will appear *)
  placeholder : bool
}.

Definition render (a : AppState) : View :=
  mkView
    (dropzoneBg a)
    (match imageFile a with
     | Some _ => "Click to change image"
     | None => "Drag & drop or click to upload"
     end)
    (isProcessing a)
    (userPrompt a)
    (isProcessing a)
    (match status a, imageFile a with
     | AppStatus.idle, Some _ =>
         Some (isProcessing a || match imageFile a with
                                 | Some _ => false
                                 | None => true
                                 end)
     | _, _ => None
     end)
    (match status a with
     | AppStatus.done => true
     | AppStatus.error => true
     | _ => false
     end)
    (if isProcessing a then Some (progressMessage a) else None)
    (if truthy (error a)
     then Some (match error a with Some m => m | None => "" end)
     else None)
    (stepCards 0 (length (restorationSteps a)) (restorationSteps a))
    (negb (isProcessing a)
     && (length (restorationSteps a) =? 0)%nat
     && negb (truthy (error a))).

(* ================================================================ *)
(** ** Vocabulary of the properties *)
(* ================================================================ *)

(** The world after [added] further requests have gone to the Gateway. *)
Definition send (added : list GenerateContentParameters) (w : World) : World :=
  mkWorld (app w) (API_KEY w) (aiRef w) (requests w ++ added)
          (console w) (trace w).

(** The media types that a request declares for the images it carries. *)
Definition declared_media_types (request : GenerateContentParameters)
  : list (option string) :=
  flat_map (fun p => match part_inlineData p with
                     | Some blob => [mimeType blob]
                     | None => []
                     end)
           (contents request).

(** A request that carries one image, declared as ['image/png']. *)
Definition sends_png (request : GenerateContentParameters) : Prop :=
  declared_media_types request = [Some "image/png"].

Definition png_prefix : string := "data:image/png;base64,".

Definition beforeImage (s : RestorationStep) : js_value := Obj.get "beforeImage" s.
Definition afterImage (s : RestorationStep) : js_value := Obj.get "afterImage" s.
Definition stepNumber (s : RestorationStep) : js_value := Obj.get "step" s.

(** [planStep.step], with [undefined] where the read would throw. *)
Definition plan_step_number (planStep : js_value) : js_value :=
  match get_property planStep "step" with
  | inr v => v
  | inl _ => JUndefined
  end.

(** The image-chaining invariant on a results sequence that starts from the
    image [first]: each entry starts from the image that the entry before it
    produced. *)
Fixpoint chained (first : js_value) (results : list RestorationStep) : Prop :=
  match results with
  | [] => True
  | s :: rest => beforeImage s = first /\ chained (afterImage s) rest
  end.

(** [results] are the entries that the loop builds for the first steps of
    [plan], in plan order, starting from the image [first]. *)
Fixpoint built_from (plan : list js_value) (first : option string)
    (results : list RestorationStep) : Prop :=
  match results, plan with
  | [], _ => True
  | s :: results', planStep :: plan' =>
      exists image prompt payload,
        first = Some image /\
        s = newStepOf planStep prompt first (png_prefix ++ payload) /\
        built_from plan' (Some (png_prefix ++ payload)) results'
  | _ :: _, [] => False
  end.

(** The non-empty prefixes of [results] after the first [n] entries:
    what the loop publishes while it appends to [n] entries one at a time. *)
Definition growth (n : nat) (results : list RestorationStep)
  : list (list RestorationStep) :=
  map (fun k => firstn k results) (seq (S n) (length results - n)).

(** A [PlanStep] as the data model has it: an object with a number under
    [step] and a string under [goal]. *)
Definition well_formed_PlanStep (v : js_value) : bool :=
  match v with
  | JObj props =>
      match Obj.get "step" props, Obj.get "goal" props with
      | JNum _, JStr _ => true
      | _, _ => false
      end
  | _ => false
  end.


(** Step numbers that increase, starting at 1. *)
Fixpoint increasing_after (previous : float) (numbers : list js_value) : bool :=
  match numbers with
  | [] => true
  | JNum n :: rest => PrimFloat.ltb previous n && increasing_after n rest
  | _ :: _ => false
  end.

Definition increasing_from_1 (numbers : list js_value) : bool :=
  match numbers with
  | [] => true
  | JNum n :: rest => PrimFloat.eqb n 1%float && increasing_after n rest
  | _ :: _ => false
  end.

(** The error that the planning operation throws. *)
Definition planError : js_error :=
  Error "Could not generate a valid restoration plan. The AI's response was not in the expected format.".

(** The text that the planning operation hands to [JSON.parse]: a missing
    text converts to the string [undefined]. *)
Definition response_text (response : GenerateContentResponse) : string :=
  match resp_text response with
  | Some t => t
  | None => "undefined"
  end.


(** The world in which the [try] block of [handleRestore] starts. *)
Definition begin_run (w : World) : World :=
  snd ((resetState ;;;
        set_state (SetStatus AppStatus.planning) ;;;
        set_state (SetProgressMessage "Generating restoration plan...")) w).

(** The planning phase of a run: the client, then the plan. *)
Definition planning_phase (file : File) (w : World)
  : completion (GoogleGenAI * list js_value) * World :=
  (ai <- getAiClient ;;
   plan <- generateRestorationPlan ai file (userPrompt (app w)) ;;
   ret (ai, plan)) (begin_run w).

(** The world in which the loop of a run starts. *)
Definition loop_start (w : World) : World :=
  call_setter (SetStatus AppStatus.restoring) w.

(** The world that the [catch] block of [handleRestore] leaves. *)
Definition fail_run (e : js_error) (w : World) : World :=
  snd ((console_error None e ;;;
        set_state (SetError (Some (if String.eqb (err_message e) ""
                                   then unknownError
                                   else err_message e))) ;;;
        set_state (SetStatus AppStatus.error)) w).

(** The world that the end of the [try] block leaves. *)
Definition finish_run (w : World) : World :=
  snd ((set_state (SetStatus AppStatus.done) ;;;
        set_state (SetProgressMessage "Restoration complete!")) w).

(** The call ended with a value. *)
Definition settled {A : Type} (r : completion A) : bool :=
  match r with Returned _ => true | _ => false end.

(** What the loop leaves alone. *)
Definition frame (w w' : World) : Prop :=
  imageFile (app w') = imageFile (app w) /\
  imagePreview (app w') = imagePreview (app w) /\
  userPrompt (app w') = userPrompt (app w) /\
  status (app w') = status (app w) /\
  error (app w') = error (app w) /\
  API_KEY w' = API_KEY w /\
  aiRef w' = aiRef w /\
  console w' = console w.

(** The message that the [catch] block shows for an error. *)
Definition shown_message (e : js_error) : string :=
  if String.eqb (err_message e) "" then unknownError else err_message e.

(** How a run ends. *)
Inductive ending : Type :=
| Completed
| StepFailed (e : js_error)
| StepPending
| PlanningFailed (e : js_error)
| PlanningPending.

(** The statuses that the setter calls of a trace set, oldest first. *)
Fixpoint status_calls (calls : list setter_call) : list AppStatus.t :=
  match calls with
  | [] => []
  | SetStatus s :: rest => s :: status_calls rest
  | _ :: rest => status_calls rest
  end.

(** The string holds no comma. *)
Fixpoint comma_free (s : string) : bool :=
  match s with
  | EmptyString => true
  | String c rest => negb (Ascii.eqb c ",") && comma_free rest
  end.

(** The world with another value of [process.env.API_KEY]. *)
Definition with_API_KEY (key : option string) (w : World) : World :=
  mkWorld (app w) key (aiRef w) (requests w) (console w) (trace w).

(** The image part that the per-step operations build from an image. *)
Definition stepImagePart (image : string) : Part :=
  mkPart None
    (Some (mkBlob (nth_error (JsString.split "," image) 1) (Some "image/png"))).

(** The request of the prompt operation and the request of the edit
    operation, for a step on [image]. *)
Definition promptRequest (image goalText userPrompt : string)
  : GenerateContentParameters :=
  mkRequest "gemini-2.5-pro"
    [textPart (stepPromptText goalText userPrompt); stepImagePart image] None.

Definition editRequest (image stepPrompt : string) : GenerateContentParameters :=
  mkRequest "gemini-2.5-flash-image"
    [textPart stepPrompt; stepImagePart image]
    (Some (mkConfig None None (Some [IMAGE]))).

(** The last character of a string. *)
Fixpoint last_char (s : string) : option ascii :=
  match s with
  | EmptyString => None
  | String c EmptyString => Some c
  | String _ rest => last_char rest
  end.

(** No white space at either end. *)
Definition trimmed (s : string) : bool :=
  match s with
  | EmptyString => true
  | String c _ =>
      negb (JsString.is_white c)
      && match last_char s with
         | Some last => negb (JsString.is_white last)
         | None => true
         end
  end.

(** A setter call that the loop of a run over [total] steps may make: a
    progress text of a step within the plan, or a publication of results. *)
Definition loop_call (total : nat) (c : setter_call) : Prop :=
  match c with
  | SetProgressMessage m =>
      exists index goal,
        index < total /\
        (m = promptProgress index total goal \/ m = applyProgress index total goal)
  | SetRestorationSteps _ => True
  | _ => False
  end.

(* ================================================================ *)
(** ** Objects *)
(* ================================================================ *)

Lemma get_set_same k v o : Obj.get k (Obj.set k v o) = v.
Proof.
  unfold Obj.get.
  induction o as [| [k' v'] o IH]; simpl.
  - now rewrite String.eqb_refl.
  - destruct (String.eqb k k') eqn:E; simpl; rewrite E; auto.
Qed.

Lemma get_set_other k k' v o :
  String.eqb k k' = false -> Obj.get k (Obj.set k' v o) = Obj.get k o.
Proof.
  intros Hk. unfold Obj.get.
  induction o as [| [k0 v0] o IH]; simpl.
  - now rewrite Hk.
  - destruct (String.eqb k' k0) eqn:E; simpl.
    + apply String.eqb_eq in E. subst k0. now rewrite Hk.
    + destruct (String.eqb k k0); auto.
Qed.

Lemma beforeImage_newStepOf p prompt cur img :
  beforeImage (newStepOf p prompt cur img) = image_value cur.
Proof.
  unfold beforeImage, newStepOf.
  rewrite get_set_other by reflexivity. apply get_set_same.
Qed.

Lemma afterImage_newStepOf p prompt cur img :
  afterImage (newStepOf p prompt cur img) = JStr img.
Proof. unfold afterImage, newStepOf. apply get_set_same. Qed.

(** No array index is spelled [step]. *)
Lemma of_nat_not_step i : String.eqb "step" (JsString.of_nat i) = false.
Proof.
  unfold JsString.of_nat. destruct (Nat.to_uint i); reflexivity.
Qed.

Lemma lookup_step_indexed (A : Type) (f : A -> js_value) l i :
  Obj.lookup "step" (Obj.indexed f i l) = None.
Proof.
  revert i. induction l as [| x l IH]; intros i; simpl; auto.
  pose proof (of_nat_not_step i) as E. simpl in E. rewrite E. apply IH.
Qed.

(** The spread keeps the step number of the plan step. *)
Lemma stepNumber_newStepOf p prompt cur img :
  stepNumber (newStepOf p prompt cur img) = plan_step_number p.
Proof.
  unfold stepNumber, newStepOf.
  rewrite !get_set_other by reflexivity.
  unfold plan_step_number, Obj.get.
  destruct p; simpl; auto; now rewrite lookup_step_indexed.
Qed.

Lemma send_nil w : send [] w = w.
Proof. destruct w. unfold send. simpl. now rewrite app_nil_r. Qed.

(* ================================================================ *)
(** ** Effects of the Gateway operations *)
(* ================================================================ *)

(** Case analysis on the innermost scrutinee of a run. *)
Ltac split_run H :=
  match type of H with
  | context [match ?x with _ => _ end] =>
      lazymatch x with
      | context [match _ with _ => _ end] => fail
      | _ => destruct x eqn:?
      end
  end.

Ltac run_cases H :=
  unfold bind, lift, throw, ret, try_catch in H;
  repeat (split_run H; cbn beta iota in H);
  inversion H; subst; clear H.

Lemma base64ToGenerativePart_png cur part :
  base64ToGenerativePart cur None = inr part ->
  exists image payload,
    cur = Some image /\
    part = mkPart None (Some (mkBlob payload (Some "image/png"))).
Proof.
  unfold base64ToGenerativePart. destruct cur as [image |]; intros H.
  - inversion H. eauto.
  - discriminate.
Qed.

Lemma sends_png_text_image t payload model config :
  sends_png
    (mkRequest model
       [textPart t; mkPart None (Some (mkBlob payload (Some "image/png")))]
       config).
Proof. reflexivity. Qed.

(** The prompt call changes nothing but the Gateway's log, sends at most one
    request, declared as PNG, and needs an image to return. *)
Lemma generateStepPrompt_effect ai cur goal up w r w' :
  generateStepPrompt ai cur goal up w = (r, w') ->
  exists added,
    w' = send added w /\ Forall sends_png added /\
    (settled r = true -> exists image, cur = Some image).
Proof.
  unfold generateStepPrompt, models_generateContent. intros H.
  run_cases H.
  all: try (exists []; rewrite send_nil; repeat split; auto; discriminate).
  all: match goal with
       | E : base64ToGenerativePart _ _ = inr _ |- _ =>
           apply base64ToGenerativePart_png in E;
           destruct E as (image & payload & -> & ->)
       end.
  all: eexists [_]; repeat split; eauto using sends_png_text_image.
Qed.

Local Open Scope list_scope.

(** The edit call changes nothing but the Gateway's log, sends at most one
    request, declared as PNG, and returns PNG data URLs only. *)
Lemma executeImageStep_effect ai cur prompt w r w' :
  executeImageStep ai cur prompt w = (r, w') ->
  exists added,
    w' = send added w /\ Forall sends_png added /\
    match r with
    | Returned image => exists payload, image = (png_prefix ++ payload)%string
    | _ => True
    end.
Proof.
  unfold executeImageStep, models_generateContent. intros H.
  run_cases H.
  all: try (exists []; rewrite send_nil; repeat split; auto; discriminate).
  all: match goal with
       | E : base64ToGenerativePart _ _ = inr _ |- _ =>
           apply base64ToGenerativePart_png in E;
           destruct E as (image & payload & -> & ->)
       end.
  all: eexists [_]; repeat split; eauto using sends_png_text_image.
  all: eexists; reflexivity.
Qed.

Lemma frame_refl w : frame w w.
Proof. unfold frame. tauto. Qed.

Lemma frame_trans w1 w2 w3 : frame w1 w2 -> frame w2 w3 -> frame w1 w3.
Proof. unfold frame. intuition congruence. Qed.

Lemma published_app l1 l2 : published (l1 ++ l2) = published l1 ++ published l2.
Proof.
  induction l1 as [| c l1 IH]; simpl; auto.
  destruct c; simpl; auto. now rewrite IH.
Qed.

(** One iteration: it sends PNG requests only, leaves status and error
    alone, and either returns after publishing the results with one more
    entry, built from the current image, or publishes nothing. *)
Lemma loop_body_spec ai up total idx p cur completed w r w' :
  loop_body ai up total idx p cur completed w = (r, w') ->
  frame w w' /\
  (exists added, requests w' = requests w ++ added /\ Forall sends_png added) /\
  match r with
  | Returned vars =>
      exists image prompt payload,
        cur = Some image /\
        vars = (Some (png_prefix ++ payload)%string,
                completed
                ++ [newStepOf p prompt cur (png_prefix ++ payload)%string]) /\
        restorationSteps (app w') = snd vars /\
        published (trace w') = published (trace w) ++ [snd vars]
  | _ =>
      restorationSteps (app w') = restorationSteps (app w) /\
      published (trace w') = published (trace w)
  end.
Proof.
  unfold loop_body, set_state. intros H.
  run_cases H.
  all: repeat match goal with
         | E : generateStepPrompt _ _ _ _ _ = _ |- _ =>
             apply generateStepPrompt_effect in E;
             destruct E as (? & -> & ? & ?)
         | E : executeImageStep _ _ _ _ = _ |- _ =>
             apply executeImageStep_effect in E;
             destruct E as (? & -> & ? & ?)
         end.
  all: split; [unfold frame; simpl; tauto |].
  all: split;
    [ simpl; rewrite <- ?app_assoc;
      try (eexists; split; [reflexivity | auto using Forall_app, Forall_nil]; fail);
      try (exists []; split; [now rewrite app_nil_r | constructor]) |].
  all: try (eexists; split; [reflexivity | apply Forall_app; auto]; fail).
  all: try (simpl; rewrite ?published_app; simpl; rewrite ?app_nil_r; auto; fail).
  repeat match goal with
         | H : settled (Returned _) = true -> _ |- _ =>
             destruct (H eq_refl) as (? & ->); clear H
         | H : exists _, _ = (png_prefix ++ _)%string |- _ =>
             destruct H as (? & ->)
         end.
  do 3 eexists. split; [reflexivity |]. split; [reflexivity |].
  simpl; rewrite ?published_app; simpl; rewrite ?app_nil_r; auto.
Qed.

(* ================================================================ *)
(** ** The loop *)
(* ================================================================ *)

Lemma growth_nil n results : length results = n -> growth n results = [].
Proof. intros <-. unfold growth. now rewrite Nat.sub_diag. Qed.

Lemma firstn_snoc (A : Type) (l : list A) x rest :
  firstn (S (length l)) (l ++ x :: rest) = l ++ [x].
Proof.
  induction l as [| y l IH].
  - reflexivity.
  - simpl. f_equal. exact IH.
Qed.

Lemma growth_step n (results : list RestorationStep) :
  n < length results ->
  growth n results = firstn (S n) results :: growth (S n) results.
Proof.
  intros Hn. unfold growth.
  replace (length results - n) with (S (length results - S n)) by lia.
  reflexivity.
Qed.

Lemma growth_cons (completed : list RestorationStep) s rest :
  growth (length completed) (completed ++ s :: rest) =
  (completed ++ [s])
    :: growth (length (completed ++ [s])) ((completed ++ [s]) ++ rest).
Proof.
  rewrite growth_step by (rewrite length_app; simpl; lia).
  rewrite firstn_snoc, <- app_assoc, length_app, Nat.add_1_r.
  reflexivity.
Qed.

(** The loop over a plan that continues with further steps. *)
Lemma restore_loop_app ai up total l1 l2 :
  forall idx cur completed w,
    restore_loop ai up total idx (l1 ++ l2) cur completed w =
    bind (restore_loop ai up total idx l1 cur completed)
         (fun vars =>
            restore_loop ai up total (idx + length l1) l2 (fst vars) (snd vars))
         w.
Proof.
  induction l1 as [| p l1 IH]; intros idx cur completed w; simpl.
  - unfold bind, ret. simpl. now rewrite Nat.add_0_r.
  - replace (idx + S (length l1)) with (S idx + length l1) by lia.
    unfold bind.
    destruct (loop_body ai up total idx p cur completed w) as [[vars | e |] w1];
      auto.
Qed.

(** What a run of the loop does, however it ends: the entries it appends
    are built from the first steps of the plan, each publication has one
    entry more than the one before, and the loop returns exactly when it
    has appended an entry for every step. *)
Lemma restore_loop_spec ai up total plan :
  forall idx cur completed w r w',
    restore_loop ai up total idx plan cur completed w = (r, w') ->
    restorationSteps (app w) = completed ->
    exists new,
      built_from plan cur new /\
      restorationSteps (app w') = completed ++ new /\
      published (trace w') =
        published (trace w) ++ growth (length completed) (completed ++ new) /\
      frame w w' /\
      (exists added,
          requests w' = requests w ++ added /\ Forall sends_png added) /\
      match r with
      | Returned vars => length new = length plan /\ snd vars = completed ++ new
      | _ => length new < length plan
      end.
Proof.
  induction plan as [| p rest IH]; intros idx cur completed w r w' H Hc.
  - inversion H; subst. exists []. rewrite !app_nil_r.
    rewrite growth_nil by reflexivity. rewrite app_nil_r.
    repeat split; auto using frame_refl.
    exists []. now rewrite app_nil_r.
  - simpl in H. unfold bind in H.
    destruct (loop_body ai up total idx p cur completed w)
      as [r1 w1] eqn:Hbody.
    apply loop_body_spec in Hbody.
    destruct Hbody as (Hf & (added & Hreq & Hpng) & Hr1).
    destruct r1 as [vars | e |].
    + destruct Hr1 as (image & prompt & payload & -> & -> & Hsteps & Hpub).
      simpl in H, Hsteps, Hpub.
      apply IH in H; auto.
      destruct H as (new & Hb & Hs & Hp & Hf' & (added' & Hreq' & Hpng') & Hr).
      exists (newStepOf p prompt (Some image) (png_prefix ++ payload)%string :: new).
      split; [simpl; eauto 6 |].
      split; [now rewrite Hs, <- app_assoc |].
      split; [rewrite Hp, Hpub, growth_cons, <- app_assoc; reflexivity |].
      split; [eauto using frame_trans |].
      split.
      * exists (added ++ added'). rewrite Hreq', Hreq, app_assoc.
        split; auto. apply Forall_app; auto.
      * destruct r; simpl; rewrite <- ?app_assoc in Hr; simpl in Hr;
          intuition lia.
    + inversion H; subst. destruct Hr1 as (Hs & Hp).
      exists []. rewrite !app_nil_r, growth_nil, app_nil_r by reflexivity.
      simpl. split; [exact I |]. split; [exact Hs |]. split; [exact Hp |].
      split; [exact Hf |]. split; [eauto | lia].
    + inversion H; subst. destruct Hr1 as (Hs & Hp).
      exists []. rewrite !app_nil_r, growth_nil, app_nil_r by reflexivity.
      simpl. split; [exact I |]. split; [exact Hs |]. split; [exact Hp |].
      split; [exact Hf |]. split; [eauto | lia].
Qed.

(* ================================================================ *)
(** ** Entries built by the loop *)
(* ================================================================ *)

Lemma built_from_chained plan : forall cur new,
  built_from plan cur new -> chained (image_value cur) new.
Proof.
  induction plan as [| p plan IH]; intros cur [| s new] H; simpl in *;
    try tauto.
  destruct H as (image & prompt & payload & -> & -> & H).
  rewrite beforeImage_newStepOf, afterImage_newStepOf.
  split; auto. apply IH in H. exact H.
Qed.

Lemma built_from_first plan cur s new :
  built_from plan cur (s :: new) ->
  exists image, cur = Some image /\ beforeImage s = JStr image.
Proof.
  destruct plan as [| p plan]; simpl; [tauto |].
  intros (image & prompt & payload & -> & -> & _).
  exists image. now rewrite beforeImage_newStepOf.
Qed.

Lemma built_from_stepNumbers plan : forall cur new,
  built_from plan cur new ->
  map stepNumber new = map plan_step_number (firstn (length new) plan).
Proof.
  induction plan as [| p plan IH]; intros cur [| s new] H; simpl in *;
    try tauto.
  destruct H as (image & prompt & payload & -> & -> & H).
  rewrite stepNumber_newStepOf. f_equal. eauto.
Qed.

Lemma built_from_png plan : forall cur new,
  built_from plan cur new ->
  Forall (fun s => exists payload,
              afterImage s = JStr (png_prefix ++ payload)%string) new.
Proof.
  induction plan as [| p plan IH]; intros cur [| s new] H; simpl in *;
    try tauto; constructor.
  - destruct H as (image & prompt & payload & -> & -> & H).
    rewrite afterImage_newStepOf. eauto.
  - destruct H as (image & prompt & payload & -> & -> & H). eauto.
Qed.

(** The entries follow the plan, position by position. *)
Lemma built_from_nth plan : forall cur new i s,
  built_from plan cur new ->
  nth_error new i = Some s ->
  exists planStep prompt before after,
    nth_error plan i = Some planStep /\
    s = newStepOf planStep prompt before after.
Proof.
  induction plan as [| p plan IH]; intros cur [| s0 new] i s H Hi;
    simpl in *; try tauto; try (destruct i; discriminate).
  destruct H as (image & prompt & payload & -> & -> & H).
  destruct i as [| i]; simpl in *.
  - inversion Hi; subst. eauto 6.
  - eauto.
Qed.

(** The chaining invariant, entry by entry. *)
Lemma chained_adjacent results : forall first i s t,
  chained first results ->
  nth_error results i = Some s ->
  nth_error results (S i) = Some t ->
  afterImage s = beforeImage t.
Proof.
  induction results as [| s0 results IH]; intros first i s t H Hs Ht.
  - destruct i; discriminate.
  - destruct H as (_ & H). destruct i as [| i]; simpl in *.
    + inversion Hs; subst. destruct results as [| t0 results]; [discriminate |].
      inversion Ht; subst. destruct H as (H & _). auto.
    + eauto.
Qed.

(* ================================================================ *)
(** ** The phases of a run *)
(* ================================================================ *)

Lemma begin_run_app w :
  app (begin_run w) =
  mkApp (imageFile (app w)) (imagePreview (app w)) (userPrompt (app w))
        AppStatus.planning None [] "Generating restoration plan...".
Proof. reflexivity. Qed.

Lemma begin_run_trace w :
  trace (begin_run w) =
  trace w ++ [SetStatus AppStatus.idle; SetError None; SetRestorationSteps [];
              SetProgressMessage ""; SetStatus AppStatus.planning;
              SetProgressMessage "Generating restoration plan..."].
Proof. cbn. now rewrite <- !app_assoc. Qed.

Lemma begin_run_requests w : requests (begin_run w) = requests w.
Proof. reflexivity. Qed.

(** Once a picked file has been read, the preview is its data URL. *)
Lemma preview_of_uploaded_file w f :
  let w1 := snd (reader_onloadend f (snd (handleFileChange (Some f) w))) in
  imageFile (app w1) = Some f /\ imagePreview (app w1) = reader_result f.
Proof. split; reflexivity. Qed.

Lemma getAiClient_effect w r w' :
  getAiClient w = (r, w') ->
  app w' = app w /\ trace w' = trace w /\ requests w' = requests w /\
  console w' = console w /\ API_KEY w' = API_KEY w.
Proof.
  unfold getAiClient. intros H.
  destruct (aiRef w); [| destruct (falsy (API_KEY w))];
    inversion H; subst; simpl; auto.
Qed.

(** The planning call leaves the component state alone, sends at most one
    request, which declares the media type of the file, and returns only
    non-empty plans. *)
Lemma generateRestorationPlan_effect ai f up w r w' :
  generateRestorationPlan ai f up w = (r, w') ->
  app w' = app w /\ trace w' = trace w /\
  (exists added,
      requests w' = requests w ++ added /\ length added <= 1 /\
      Forall (fun request =>
                declared_media_types request = [Some (file_type f)]) added) /\
  match r with
  | Returned plan => plan <> []
  | Threw e => True
  | Pending => True
  end.
Proof.
  unfold generateRestorationPlan, fileToGenerativePart, models_generateContent,
    console_error.
  intros H. run_cases H; simpl.
  all: repeat split; auto; try discriminate.
  all: try (exists []; rewrite app_nil_r; repeat split; auto; fail).
  all: eexists [_]; repeat split; auto.
Qed.

Lemma planning_phase_effect f w r wp :
  planning_phase f w = (r, wp) ->
  app wp = app (begin_run w) /\ trace wp = trace (begin_run w) /\
  (exists added,
      requests wp = requests w ++ added /\ length added <= 1 /\
      Forall (fun request =>
                declared_media_types request = [Some (file_type f)]) added) /\
  match r with
  | Returned (ai, plan) => plan <> []
  | Threw e => True
  | Pending => True
  end.
Proof.
  unfold planning_phase. intros H. unfold bind, ret in H.
  destruct (getAiClient (begin_run w)) as [r1 w1] eqn:Hc.
  apply getAiClient_effect in Hc. destruct Hc as (Ha & Ht & Hr & _).
  destruct r1 as [ai | e |].
  - destruct (generateRestorationPlan ai f (userPrompt (app w)) w1)
      as [r2 w2] eqn:Hp.
    apply generateRestorationPlan_effect in Hp.
    destruct Hp as (Ha' & Ht' & (added & Hr' & Hadd) & Hplan).
    rewrite Hr, begin_run_requests in Hr'.
    destruct r2; inversion H; subst; repeat split; try congruence; eauto.
  - inversion H; subst. repeat split; auto.
    exists []. rewrite app_nil_r. auto.
  - inversion H; subst. repeat split; auto.
    exists []. rewrite app_nil_r. auto.
Qed.

(** A run, phase by phase. *)
Lemma handleRestore_run w f :
  imageFile (app w) = Some f ->
  handleRestore w =
  match planning_phase f w with
  | (Returned (ai, plan), wp) =>
      match restore_loop ai (userPrompt (app w)) (length plan) 0 plan
              (imagePreview (app w)) [] (loop_start wp) with
      | (Returned _, wl) => (Returned tt, finish_run wl)
      | (Threw e, wl) => (Returned tt, fail_run e wl)
      | (Pending, wl) => (Pending, wl)
      end
  | (Threw e, wp) => (Returned tt, fail_run e wp)
  | (Pending, wp) => (Pending, wp)
  end.
Proof.
  intros Hf.
  unfold handleRestore, planning_phase, begin_run, fail_run, finish_run,
    loop_start, resetState, try_catch, bind, ret, set_state, console_error.
  rewrite Hf. cbn [fst snd].
  match goal with
  | |- context [getAiClient ?x] => destruct (getAiClient x) as [[ai | e |] w1]
  end; auto.
  destruct (generateRestorationPlan ai f (userPrompt (app w)) w1)
    as [[plan | e |] w2]; auto.
  match goal with
  | |- context [restore_loop ?a ?b ?c ?d ?e ?f ?g ?h] =>
      destruct (restore_loop a b c d e f g h) as [[vars | e0 |] wl]
  end; auto.
Qed.

Lemma published_begin_run w :
  published (trace (begin_run w)) = published (trace w) ++ [[]].
Proof. rewrite begin_run_trace, published_app. reflexivity. Qed.

Lemma fail_run_effect e w :
  status (app (fail_run e w)) = AppStatus.error /\
  error (app (fail_run e w)) = Some (shown_message e) /\
  restorationSteps (app (fail_run e w)) = restorationSteps (app w) /\
  published (trace (fail_run e w)) = published (trace w) /\
  requests (fail_run e w) = requests w.
Proof.
  cbn. rewrite <- app_assoc, published_app. cbn. rewrite app_nil_r. auto.
Qed.

Lemma finish_run_effect w :
  status (app (finish_run w)) = AppStatus.done /\
  error (app (finish_run w)) = error (app w) /\
  restorationSteps (app (finish_run w)) = restorationSteps (app w) /\
  published (trace (finish_run w)) = published (trace w) /\
  requests (finish_run w) = requests w.
Proof.
  cbn. rewrite <- app_assoc, published_app. cbn. rewrite app_nil_r. auto.
Qed.

Lemma loop_start_effect w :
  status (app (loop_start w)) = AppStatus.restoring /\
  error (app (loop_start w)) = error (app w) /\
  restorationSteps (app (loop_start w)) = restorationSteps (app w) /\
  published (trace (loop_start w)) = published (trace w) /\
  requests (loop_start w) = requests w.
Proof.
  cbn. rewrite published_app. cbn. rewrite app_nil_r. auto.
Qed.

(** Every run, summarised: what it published, what it sent, and how its
    final state depends on the way it ended. *)
Lemma handleRestore_summary w f r w' :
  imageFile (app w) = Some f ->
  handleRestore w = (r, w') ->
  exists results planning steps how,
    restorationSteps (app w') = results /\
    published (trace w') = published (trace w) ++ [] :: growth 0 results /\
    requests w' = requests w ++ planning ++ steps /\
    length planning <= 1 /\
    Forall (fun request =>
              declared_media_types request = [Some (file_type f)]) planning /\
    Forall sends_png steps /\
    match how with
    | Completed =>
        exists ai plan wp vars wl,
          planning_phase f w = (Returned (ai, plan), wp) /\
          restore_loop ai (userPrompt (app w)) (length plan) 0 plan
            (imagePreview (app w)) [] (loop_start wp) = (Returned vars, wl) /\
          built_from plan (imagePreview (app w)) results /\
          length results = length plan /\
          status (app w') = AppStatus.done /\ error (app w') = None /\
          r = Returned tt
    | StepFailed e =>
        exists ai plan wp wl,
          planning_phase f w = (Returned (ai, plan), wp) /\
          restore_loop ai (userPrompt (app w)) (length plan) 0 plan
            (imagePreview (app w)) [] (loop_start wp) = (Threw e, wl) /\
          built_from plan (imagePreview (app w)) results /\
          length results < length plan /\
          status (app w') = AppStatus.error /\
          error (app w') = Some (shown_message e) /\
          r = Returned tt
    | StepPending =>
        exists ai plan wp wl,
          planning_phase f w = (Returned (ai, plan), wp) /\
          restore_loop ai (userPrompt (app w)) (length plan) 0 plan
            (imagePreview (app w)) [] (loop_start wp) = (Pending, wl) /\
          built_from plan (imagePreview (app w)) results /\
          length results < length plan /\
          status (app w') = AppStatus.restoring /\ error (app w') = None /\
          r = Pending
    | PlanningFailed e =>
        exists wp,
          planning_phase f w = (Threw e, wp) /\
          results = [] /\ steps = [] /\
          status (app w') = AppStatus.error /\
          error (app w') = Some (shown_message e) /\
          r = Returned tt
    | PlanningPending =>
        exists wp,
          planning_phase f w = (Pending, wp) /\
          results = [] /\ steps = [] /\
          status (app w') = AppStatus.planning /\ error (app w') = None /\
          r = Pending
    end.
Proof.
  intros Hf H. rewrite (handleRestore_run w Hf) in H.
  destruct (planning_phase f w) as [rp wp] eqn:Hplan.
  pose proof (planning_phase_effect _ _ Hplan)
    as (Happ & Htr & (planning & Hreq & Hlen & Hdecl) & Hne).
  assert (Hpub : published (trace wp) = published (trace w) ++ [[]])
    by (rewrite Htr; apply published_begin_run).
  destruct rp as [[ai plan] | e |].
  - destruct (restore_loop ai (userPrompt (app w)) (length plan) 0 plan
                (imagePreview (app w)) [] (loop_start wp)) as [rl wl] eqn:Hloop.
    pose proof (loop_start_effect wp) as (Hs0 & He0 & Hr0 & Hp0 & Hq0).
    pose proof Hloop as Hspec. apply restore_loop_spec in Hspec;
      [| rewrite Hr0, Happ; reflexivity].
    destruct Hspec
      as (results & Hb & Hres & Hpubl & Hfr & (steps & Hreqs & Hpng) & Hr).
    cbn [app length] in Hres, Hpubl.
    destruct Hfr as (_ & _ & _ & Hst & Her & _).
    rewrite Hp0, Hpub, <- app_assoc in Hpubl. simpl in Hpubl.
    rewrite Hq0, Hreq, <- app_assoc in Hreqs.
    rewrite Hs0 in Hst. rewrite He0, Happ in Her. simpl in Her.
    destruct rl as [vars | e |]; inversion H; subst r w'; clear H.
    + pose proof (finish_run_effect wl) as (Hs1 & He1 & Hr1 & Hp1 & Hq1).
      exists results, planning, steps, Completed.
      rewrite Hr1, Hp1, Hq1.
      repeat (split; [assumption || tauto |]).
      exists ai, plan, wp, vars, wl.
      repeat split; auto; try tauto; congruence.
    + pose proof (fail_run_effect e wl) as (Hs1 & He1 & Hr1 & Hp1 & Hq1).
      exists results, planning, steps, (StepFailed e).
      rewrite Hr1, Hp1, Hq1.
      repeat (split; [assumption || tauto |]).
      exists ai, plan, wp, wl. repeat split; auto.
    + exists results, planning, steps, StepPending.
      repeat (split; [assumption || tauto |]).
      exists ai, plan, wp, wl. repeat split; auto.
  - inversion H; subst r w'; clear H.
    pose proof (fail_run_effect e wp) as (Hs1 & He1 & Hr1 & Hp1 & Hq1).
    exists [], planning, [], (PlanningFailed e).
    rewrite Hr1, Hp1, Hq1, Happ, Hpub, Hreq, app_nil_r.
    repeat (split; [auto; fail |]). eauto 10.
  - inversion H; subst r w'; clear H.
    exists [], planning, [], PlanningPending.
    rewrite Happ, Hpub, Hreq, app_nil_r.
    repeat (split; [auto; fail |]). eauto 10.
Qed.

(** The results of every run are entries built from a plan, starting from
    the preview image; when planning fails, from the empty plan. *)
Lemma handleRestore_built w f r w' :
  imageFile (app w) = Some f ->
  handleRestore w = (r, w') ->
  exists plan, built_from plan (imagePreview (app w)) (restorationSteps (app w')).
Proof.
  intros Hf H.
  destruct (handleRestore_summary w Hf H)
    as (results & planning & steps & how & Hres & _ & _ & _ & _ & _ & Hhow).
  rewrite Hres.
  destruct how.
  - destruct Hhow as (ai & plan & wp & vars & wl & _ & _ & Hb & _). eauto.
  - destruct Hhow as (ai & plan & wp & wl & _ & _ & Hb & _). eauto.
  - destruct Hhow as (ai & plan & wp & wl & _ & _ & Hb & _). eauto.
  - destruct Hhow as (wp & _ & -> & _). exists []. exact I.
  - destruct Hhow as (wp & _ & -> & _). exists []. exact I.
Qed.

(* ================================================================ *)
(** ** Properties of a run *)
(* ================================================================ *)

(** The chaining that every completed run keeps: the [beforeImage] of the
    first entry is the preview that the run started from, whichever file
    that preview belongs to, and for every adjacent pair of entries, the
    [afterImage] of the first is the [beforeImage] of the second. *)
Theorem completed_run_chains_images w f r w' :
  imageFile (app w) = Some f ->
  handleRestore w = (r, w') ->
  status (app w') = AppStatus.done ->
  let results := restorationSteps (app w') in
  (forall s, nth_error results 0 = Some s ->
             exists image,
               imagePreview (app w) = Some image /\ beforeImage s = JStr image) /\
  (forall i s t, nth_error results i = Some s ->
                 nth_error results (S i) = Some t ->
                 afterImage s = beforeImage t).
Proof.
  intros Hf H _ results.
  destruct (handleRestore_built w Hf H) as (plan & Hb).
  fold results in Hb. split.
  - intros s Hs. destruct results as [| s0 rest]; [discriminate |].
    inversion Hs; subst s0. eapply built_from_first; eauto.
  - intros i s t Hs Ht.
    eapply chained_adjacent; eauto using built_from_chained.
Qed.

(** C8. Invoking [handleRestore] when no image is present is a no-op: the
    loop does not start, no request is sent, and the status, the error, the
    results sequence and the progress message are what they were. *)
Theorem handleRestore_without_image_is_noop w :
  imageFile (app w) = None ->
  handleRestore w = (Returned tt, w).
Proof. intros H. unfold handleRestore. now rewrite H. Qed.

(** C9. Reset is idempotent: from any prior state, in particular after
    [done] or [error], [resetState] (and with it the Start Over action)
    yields status [idle], an empty results sequence and no error message,
    and invoking it again yields the same state. *)
Theorem reset_is_idempotent w :
  (let w1 := snd (resetState w) in
   status (app w1) = AppStatus.idle /\
   restorationSteps (app w1) = [] /\
   error (app w1) = None /\
   progressMessage (app w1) = "" /\
   app (snd (resetState w1)) = app w1) /\
  (let w1 := snd (handleStartOver w) in
   status (app w1) = AppStatus.idle /\
   restorationSteps (app w1) = [] /\
   error (app w1) = None /\
   progressMessage (app w1) = "" /\
   app (snd (handleStartOver w1)) = app w1).
Proof. repeat split. Qed.

(** C10. In every run, each [afterImage] is a data URL that starts with
    [data:image/png;base64,], and each request that carries a step's image
    back to the Gateway declares it as [image/png]; only the planning
    request, if one was sent, declares the media type of the uploaded
    file. *)
Theorem step_images_are_declared_png w f r w' :
  imageFile (app w) = Some f ->
  handleRestore w = (r, w') ->
  Forall (fun s => exists payload,
              afterImage s = JStr ("data:image/png;base64," ++ payload)%string)
         (restorationSteps (app w')) /\
  exists planning steps,
    requests w' = requests w ++ planning ++ steps /\
    length planning <= 1 /\
    Forall (fun request =>
              declared_media_types request = [Some (file_type f)]) planning /\
    Forall (fun request =>
              declared_media_types request = [Some "image/png"]) steps.
Proof.
  intros Hf H. split.
  - destruct (handleRestore_built w Hf H) as (plan & Hb).
    exact (built_from_png _ _ _ Hb).
  - destruct (handleRestore_summary w Hf H)
      as (results & planning & steps & how & _ & _ & Hreq & Hlen & Hpl & Hst & _).
    exists planning, steps. auto.
Qed.

(** The loop fails at the step that follows the steps it has completed. *)
Lemma restore_loop_fails_at ai up total completedPlan planStep rest
    idx cur completed w vars w1 e w2 :
  restore_loop ai up total idx completedPlan cur completed w
    = (Returned vars, w1) ->
  loop_body ai up total (idx + length completedPlan) planStep
    (fst vars) (snd vars) w1 = (Threw e, w2) ->
  restore_loop ai up total idx (completedPlan ++ planStep :: rest)
    cur completed w = (Threw e, w2).
Proof.
  intros Hloop Hbody. rewrite restore_loop_app. unfold bind at 1.
  rewrite Hloop. simpl. unfold bind. now rewrite Hbody.
Qed.

(** C2. The published results sequence grows by exactly one entry with each
    completed step, in plan order (the run publishes the empty sequence and
    then each non-empty prefix of its final results, whose entries are
    built from the plan steps position by position).  When the planning
    call fails, no entry is published and the status is [error]; with a
    plan of N steps (N >= 1), the results have exactly N entries when no
    step fails, and exactly K entries, with status [error], when the first
    K steps complete and step K+1 fails. *)
Theorem results_grow_one_entry_per_step w f r w' :
  imageFile (app w) = Some f ->
  handleRestore w = (r, w') ->
  let results := restorationSteps (app w') in
  published (trace w') = published (trace w) ++ [] :: growth 0 results /\
  (forall e wp,
      planning_phase f w = (Threw e, wp) ->
      results = [] /\ status (app w') = AppStatus.error) /\
  (forall ai plan wp,
      planning_phase f w = (Returned (ai, plan), wp) ->
      let loop := restore_loop ai (userPrompt (app w)) (length plan) 0 in
      let body := loop_body ai (userPrompt (app w)) (length plan) in
      1 <= length plan /\
      (forall i s,
          nth_error results i = Some s ->
          exists planStep prompt before after,
            nth_error plan i = Some planStep /\
            s = newStepOf planStep prompt before after) /\
      (forall vars wl,
          loop plan (imagePreview (app w)) [] (loop_start wp)
            = (Returned vars, wl) ->
          length results = length plan /\ status (app w') = AppStatus.done) /\
      (forall completedPlan planStep rest vars w1 e w2,
          plan = completedPlan ++ planStep :: rest ->
          loop completedPlan (imagePreview (app w)) [] (loop_start wp)
            = (Returned vars, w1) ->
          body (length completedPlan) planStep (fst vars) (snd vars) w1
            = (Threw e, w2) ->
          length results = length completedPlan /\
          status (app w') = AppStatus.error)).
Proof.
  intros Hf H results.
  destruct (handleRestore_summary w Hf H)
    as (results' & planning & steps & how & Hres & Hpub & _).
  fold results in Hres. subst results'.
  split; [exact Hpub |].
  rewrite (handleRestore_run w Hf) in H. split.
  - intros e wp Hplan. rewrite Hplan in H. inversion H; subst r w'.
    pose proof (planning_phase_effect _ _ Hplan) as (Happ & _).
    pose proof (fail_run_effect e wp) as (Hs1 & _ & Hr1 & _).
    unfold results. rewrite Hr1, Happ. auto.
  - intros ai plan wp Hplan loop body. rewrite Hplan in H.
    pose proof (planning_phase_effect _ _ Hplan) as (Happ & _ & _ & Hne).
    split; [destruct plan; [congruence | simpl; lia] |].
    split; [| split].
    + destruct (restore_loop ai (userPrompt (app w)) (length plan) 0 plan
                  (imagePreview (app w)) [] (loop_start wp))
        as [rl wl] eqn:Hloop.
      apply restore_loop_spec in Hloop; [| cbn; now rewrite Happ].
      destruct Hloop as (new & Hb & Hres & _).
      assert (Hsame : results = new).
      { unfold results.
        destruct rl; inversion H; subst r w'; cbn; auto. }
      rewrite Hsame. intros i s Hs. eapply built_from_nth; eauto.
    + intros vars wl Hloop. unfold loop in Hloop. rewrite Hloop in H.
      inversion H; subst r w'.
      pose proof (finish_run_effect wl) as (Hs1 & _ & Hr1 & _).
      split; [| exact Hs1].
      unfold results. rewrite Hr1.
      apply restore_loop_spec in Hloop; [| cbn; now rewrite Happ].
      destruct Hloop as (new & _ & Hres & _ & _ & _ & Hlen & _).
      rewrite Hres. simpl. exact Hlen.
    + intros completedPlan planStep rest vars w1 e w2 -> Hloop Hbody.
      unfold loop, body in *.
      pose proof (@restore_loop_fails_at _ _ _ _ _ rest 0 _ _ _ _ _ _ _
                    Hloop Hbody) as Hfail.
      rewrite Hfail in H.
      inversion H; subst r w'.
      pose proof (fail_run_effect e w2) as (Hs1 & _ & Hr1 & _).
      split; [| exact Hs1].
      unfold results. rewrite Hr1.
      apply loop_body_spec in Hbody. destruct Hbody as (_ & _ & Hsame & _).
      rewrite Hsame.
      apply restore_loop_spec in Hloop; [| cbn; now rewrite Happ].
      destruct Hloop as (new & _ & Hres & _ & _ & _ & Hlen & _).
      rewrite Hres. simpl. exact Hlen.
Qed.

(** With a plan, the results of a run are built from that plan. *)
Lemma handleRestore_built_plan w f r w' ai plan wp :
  imageFile (app w) = Some f ->
  handleRestore w = (r, w') ->
  planning_phase f w = (Returned (ai, plan), wp) ->
  built_from plan (imagePreview (app w)) (restorationSteps (app w')).
Proof.
  intros Hf H Hplan.
  rewrite (handleRestore_run w Hf), Hplan in H.
  pose proof (planning_phase_effect _ _ Hplan) as (Happ & _).
  destruct (restore_loop ai (userPrompt (app w)) (length plan) 0 plan
              (imagePreview (app w)) [] (loop_start wp)) as [rl wl] eqn:Hloop.
  apply restore_loop_spec in Hloop; [| cbn; now rewrite Happ].
  destruct Hloop as (new & Hb & Hres & _).
  replace (restorationSteps (app w')) with new; auto.
  destruct rl; inversion H; subst r w'; cbn; auto.
Qed.

Lemma increasing_after_firstn k : forall previous numbers,
  increasing_after previous numbers = true ->
  increasing_after previous (firstn k numbers) = true.
Proof.
  induction k as [| k IH]; intros previous [| [| | | n | | |] numbers] H;
    simpl in *; auto; try discriminate.
  apply andb_true_iff in H. destruct H as (-> & H). simpl. auto.
Qed.

Lemma increasing_from_1_firstn k numbers :
  increasing_from_1 numbers = true ->
  increasing_from_1 (firstn k numbers) = true.
Proof.
  destruct k as [| k]; destruct numbers as [| [| | | n | | |] numbers];
    simpl; auto; try discriminate.
  intros H. apply andb_true_iff in H. destruct H as (-> & H). simpl.
  now apply increasing_after_firstn.
Qed.

(** C7, as the code has it.  The step numbers of the published results are
    the step numbers of the plan's first steps, in plan order, unchanged:
    the loop copies them and checks nothing.  They increase from 1 whenever
    those of the plan do. *)
Theorem step_numbers_follow_plan w f r w' ai plan wp :
  imageFile (app w) = Some f ->
  handleRestore w = (r, w') ->
  planning_phase f w = (Returned (ai, plan), wp) ->
  let results := restorationSteps (app w') in
  map stepNumber results =
    map plan_step_number (firstn (length results) plan) /\
  (increasing_from_1 (map plan_step_number plan) = true ->
   increasing_from_1 (map stepNumber results) = true).
Proof.
  intros Hf H Hplan results.
  pose proof (handleRestore_built_plan w Hf H Hplan) as Hb.
  fold results in Hb.
  pose proof (built_from_stepNumbers _ _ _ Hb) as Hnum.
  split; [exact Hnum |].
  intros Hinc. rewrite Hnum, <- firstn_map.
  now apply increasing_from_1_firstn.
Qed.

(** C6, as the code has it.  A missing API key is found inside the run:
    with an image present, no client cached and the key unset or empty,
    [handleRestore] resets the state, sets the status to [planning], and
    only then fails to build the client; the run ends with status [error]
    and the message of that failure, having sent no request and published
    no step. *)
Theorem missing_api_key_fails_inside_run w f :
  imageFile (app w) = Some f ->
  aiRef w = None ->
  falsy (API_KEY w) = true ->
  let w' := snd (handleRestore w) in
  fst (handleRestore w) = Returned tt /\
  trace w' =
    trace w ++ [SetStatus AppStatus.idle; SetError None;
                SetRestorationSteps []; SetProgressMessage "";
                SetStatus AppStatus.planning;
                SetProgressMessage "Generating restoration plan...";
                SetError (Some "API_KEY environment variable not set");
                SetStatus AppStatus.error] /\
  status (app w') = AppStatus.error /\
  error (app w') = Some "API_KEY environment variable not set" /\
  restorationSteps (app w') = [] /\
  requests w' = requests w.
Proof.
  intros Hf Href Hkey.
  unfold handleRestore. rewrite Hf.
  unfold try_catch, bind, getAiClient, resetState, set_state, bind. cbn.
  rewrite Href, Hkey. cbn.
  rewrite <- !app_assoc. cbn. auto 10.
Qed.

(* ================================================================ *)
(** ** Properties of the Gateway operations *)
(* ================================================================ *)

(** C3, as the code has it.  The planning operation returns a plan exactly
    when the text of the Gateway's response parses to a non-empty array,
    and the plan is that array as parsed: its elements are not inspected.
    For every other response (a text that does not parse, a value that is
    not an array, an empty array) it throws its plan error. *)
Theorem plan_returned_iff_nonempty_array ai f up w r w' url :
  reader_result f = Some url ->
  generateRestorationPlan ai f up w = (r, w') ->
  exists request,
    requests w' = requests w ++ [request] /\
    forall response,
      generateContent ai (requests w) request = Returned response ->
      (forall plan,
          r = Returned plan <->
          plan <> [] /\
          JSON_parse (response_text response) = inr (JArr plan)) /\
      ((forall plan,
           JSON_parse (response_text response) = inr (JArr plan) -> plan = []) ->
       r = Threw planError).
Proof.
  intros Hurl H.
  set (request :=
         mkRequest "gemini-2.5-pro"
           [textPart (planPrompt up);
            mkPart None
              (Some (mkBlob (nth_error (JsString.split "," url) 1)
                            (Some (file_type f))))]
           (Some (mkConfig (Some "application/json") (Some planSchema) None))).
  unfold generateRestorationPlan, fileToGenerativePart, models_generateContent,
    console_error in H.
  rewrite Hurl in H. unfold bind at 1 in H. cbn [ret] in H.
  unfold bind at 1 in H. fold request in H.
  exists request. split.
  - run_cases H; reflexivity.
  - intros response Hresp. rewrite Hresp in H.
    unfold response_text.
    run_cases H.
    all: split;
      [ intros plan; split;
        [ intros Hr; inversion Hr; subst; clear Hr | intros (Hne & Hp) ]
      | intros Hall ].
    all: try (split; [discriminate | assumption]).
    all: try reflexivity.
    all: try congruence.
    all: try (split; [discriminate | reflexivity]).
    all: specialize (Hall _ eq_refl); discriminate.
Qed.

(** With an image and a goal that converts, the prompt operation sends its
    request, and on an answer returns the trimmed text of every response
    that has a text and throws for a response without text. *)
Lemma prompt_of_answered_request ai cur goal up w r w' image goalText :
  cur = Some image ->
  ToString goal = inr goalText ->
  generateStepPrompt ai cur goal up w = (r, w') ->
  exists request,
    requests w' = requests w ++ [request] /\
    forall response,
      generateContent ai (requests w) request = Returned response ->
      (forall prompt,
          r = Returned prompt <->
          exists t, resp_text response = Some t /\ prompt = JsString.trim t) /\
      (resp_text response = None ->
       r = Threw (TypeError
                    "Cannot read properties of undefined (reading 'trim')")).
Proof.
  intros -> Hgoal H.
  set (request :=
         mkRequest "gemini-2.5-pro"
           [textPart (stepPromptText goalText up);
            mkPart None
              (Some (mkBlob (nth_error (JsString.split "," image) 1)
                            (Some "image/png")))]
           None).
  unfold generateStepPrompt, models_generateContent in H.
  unfold bind at 1 in H. cbn [lift base64ToGenerativePart ret] in H.
  unfold bind at 1 in H. rewrite Hgoal in H. cbn [lift ret] in H.
  unfold bind at 1 in H. fold request in H.
  exists request. split.
  - run_cases H; reflexivity.
  - intros response Hresp. rewrite Hresp in H.
    destruct (resp_text response) as [t |]; inversion H; subst r w'; clear H.
    + split; [| discriminate].
      intros prompt. split.
      * intros Hr. inversion Hr. eauto.
      * intros (t' & Ht & ->). inversion Ht. reflexivity.
    + split; [| reflexivity].
      intros prompt. split; [discriminate |].
      intros (t' & Ht & _). discriminate.
Qed.

(** C4, as the code has it.  The prompt operation validates nothing about
    the response text.  With a current image and a goal that converts to a
    string, it sends one request; when the Gateway answers, it returns the
    trimmed text of every response that has a text, the empty string when
    that text is empty or blank, and throws a [TypeError] when the response
    has no text; when the call is rejected it fails with the Gateway's
    error, and when the call is never answered it never returns.  With a
    [null] image, or with a goal whose string conversion throws, it fails
    before it sends anything. *)
Theorem prompt_is_trimmed_response_text ai cur goal up w r w' :
  generateStepPrompt ai cur goal up w = (r, w') ->
  (cur = None ->
   r = Threw (TypeError "Cannot read properties of null (reading 'split')") /\
   w' = w) /\
  (forall image e,
      cur = Some image -> ToString goal = inl e -> r = Threw e /\ w' = w) /\
  (forall image goalText,
      cur = Some image -> ToString goal = inr goalText ->
      w' = send [promptRequest image goalText up] w /\
      match generateContent ai (requests w) (promptRequest image goalText up) with
      | Returned response =>
          (forall prompt,
              r = Returned prompt <->
              exists t, resp_text response = Some t /\ prompt = JsString.trim t) /\
          (resp_text response = None ->
           r = Threw (TypeError
                        "Cannot read properties of undefined (reading 'trim')"))
      | Threw e => r = Threw e
      | Pending => r = Pending
      end).
Proof.
  intros H. split; [| split].
  - intros ->. cbn in H. inversion H. auto.
  - intros image e -> He.
    unfold generateStepPrompt in H.
    unfold bind at 1 in H. cbn [lift base64ToGenerativePart ret] in H.
    unfold bind at 1 in H. rewrite He in H. cbn in H. inversion H. auto.
  - intros image goalText -> Hgoal.
    unfold generateStepPrompt, models_generateContent in H.
    unfold bind at 1 in H. cbn [lift base64ToGenerativePart ret] in H.
    unfold bind at 1 in H. rewrite Hgoal in H. cbn [lift ret] in H.
    unfold bind at 1 in H.
    fold (stepImagePart image) in H. fold (promptRequest image goalText up) in H.
    fold (send [promptRequest image goalText up] w) in H.
    destruct (generateContent ai (requests w) (promptRequest image goalText up))
      as [response | e |].
    + destruct (resp_text response) as [t |]; inversion H; subst r w'; clear H.
      * split; [reflexivity |]. split; [| discriminate].
        intros prompt. split.
        -- intros Hr. inversion Hr. eauto.
        -- intros (t' & Ht & ->). inversion Ht. reflexivity.
      * split; [reflexivity |]. split; [| reflexivity].
        intros prompt. split; [discriminate |].
        intros (t' & Ht & _). discriminate.
    + inversion H; subst. auto.
    + inversion H; subst. auto.
Qed.



(* ================================================================ *)
(** ** Further properties: the client *)
(* ================================================================ *)

(** X1. [getAiClient] fails exactly when no client is cached and the API key
    is unset or empty (the empty string counts as missing); it then throws
    its configuration error and changes nothing.  When it returns, the
    returned client is the cached one, which was either cached before or is
    built from the non-empty key. *)
Theorem getAiClient_fails_iff_no_client_and_no_key w :
  ((exists e, fst (getAiClient w) = Threw e) <->
   aiRef w = None /\ falsy (API_KEY w) = true) /\
  (aiRef w = None -> falsy (API_KEY w) = true ->
   getAiClient w = (Threw (Error "API_KEY environment variable not set"), w)) /\
  (forall ai w',
      getAiClient w = (Returned ai, w') ->
      aiRef w' = Some ai /\
      (aiRef w = Some ai \/
       aiRef w = None /\ API_KEY w = Some (apiKey ai) /\ apiKey ai <> "")) /\
  fst (getAiClient w) <> Pending.
Proof.
  unfold getAiClient.
  destruct (aiRef w) as [cached |] eqn:Href.
  - split; [split |]; [| | split; [| split]].
    + intros (e & He). discriminate.
    + intros (Hn & _). discriminate.
    + discriminate.
    + intros ai w' H. inversion H; subst. auto.
    + discriminate.
  - destruct (falsy (API_KEY w)) eqn:Hkey.
    + split; [split; [auto | intros _; eexists; reflexivity] |].
      split; [reflexivity |]. split; discriminate.
    + split; [split |]; [| | split; [| split]].
      * intros (e & He). discriminate.
      * intros (_ & Hn). discriminate.
      * discriminate.
      * intros ai w' H. inversion H; subst. simpl. split; [reflexivity |].
        right. split; [reflexivity |].
        destruct (API_KEY w) as [key |]; [| discriminate].
        simpl in *. split; [reflexivity |]. intros ->. discriminate.
      * discriminate.
Qed.

(** X2. The client is built once: after a call that returned, every later
    call returns the same client and changes nothing, whatever the API key
    has become in the meantime. *)
Theorem getAiClient_caches_the_client w ai w1 :
  getAiClient w = (Returned ai, w1) ->
  forall key,
    getAiClient (with_API_KEY key w1) = (Returned ai, with_API_KEY key w1).
Proof.
  unfold getAiClient. intros H key.
  destruct (aiRef w) as [cached |] eqn:Href.
  - inversion H; subst. simpl. now rewrite Href.
  - destruct (falsy (API_KEY w)); inversion H; subst. reflexivity.
Qed.

(* ================================================================ *)
(** ** Further properties: what a run changes and how it ends *)
(* ================================================================ *)

Lemma shown_message_not_empty e : shown_message e <> "".
Proof.
  unfold shown_message.
  destruct (String.eqb (err_message e) "") eqn:E.
  - discriminate.
  - now apply String.eqb_neq.
Qed.

Lemma generateRestorationPlan_env ai f up w r w' :
  generateRestorationPlan ai f up w = (r, w') ->
  API_KEY w' = API_KEY w /\ aiRef w' = aiRef w.
Proof.
  unfold generateRestorationPlan, fileToGenerativePart, models_generateContent,
    console_error.
  intros H. run_cases H; split; reflexivity.
Qed.

Lemma planning_phase_env f w r wp :
  planning_phase f w = (r, wp) -> API_KEY wp = API_KEY w.
Proof.
  unfold planning_phase, bind, ret. intros H.
  destruct (getAiClient (begin_run w)) as [r1 w1] eqn:Hc.
  apply getAiClient_effect in Hc. destruct Hc as (_ & _ & _ & _ & Hk).
  change (API_KEY (begin_run w)) with (API_KEY w) in Hk.
  destruct r1 as [ai | e |].
  - destruct (generateRestorationPlan ai f (userPrompt (app w)) w1)
      as [r2 w2] eqn:Hp.
    apply generateRestorationPlan_env in Hp. destruct Hp as (Hk' & _).
    destruct r2; inversion H; subst; congruence.
  - inversion H; subst. exact Hk.
  - inversion H; subst. exact Hk.
Qed.

(** X3. A run never changes its inputs: the picked file, the preview, the
    instructions and the API key are after [handleRestore] what they were
    before, however the run ends. *)
Theorem run_leaves_inputs_unchanged w r w' :
  handleRestore w = (r, w') ->
  imageFile (app w') = imageFile (app w) /\
  imagePreview (app w') = imagePreview (app w) /\
  userPrompt (app w') = userPrompt (app w) /\
  API_KEY w' = API_KEY w.
Proof.
  intros H.
  destruct (imageFile (app w)) as [f |] eqn:Hf.
  - rewrite (handleRestore_run w Hf) in H.
    destruct (planning_phase f w) as [rp wp] eqn:Hplan.
    pose proof (planning_phase_effect _ _ Hplan) as (Happ & _).
    pose proof (planning_phase_env _ _ Hplan) as Hkey.
    assert (Hp : imageFile (app wp) = Some f /\
                 imagePreview (app wp) = imagePreview (app w) /\
                 userPrompt (app wp) = userPrompt (app w))
      by (rewrite Happ, begin_run_app; simpl; auto).
    destruct Hp as (Hp1 & Hp2 & Hp3).
    destruct rp as [[ai plan] | e |].
    + destruct (restore_loop ai (userPrompt (app w)) (length plan) 0 plan
                  (imagePreview (app w)) [] (loop_start wp)) as [rl wl] eqn:Hloop.
      apply restore_loop_spec in Hloop; [| cbn; now rewrite Happ].
      destruct Hloop
        as (new & _ & _ & _ & (Hl1 & Hl2 & Hl3 & _ & _ & Hl6 & _) & _).
      cbn in Hl1, Hl2, Hl3, Hl6.
      destruct rl; inversion H; subst r w'; cbn;
        rewrite Hl1, Hl2, Hl3, Hl6; auto.
    + inversion H; subst r w'. cbn. auto.
    + inversion H; subst r w'. auto.
  - unfold handleRestore in H. rewrite Hf in H. inversion H; subst. auto.
Qed.

(** X4. With an image present, a run that returns ends in [done] or in
    [error], never in a state in between: in [done] with no error message and
    the completion text as progress message, or in [error] with an error
    message that is not empty.  A run that never returns (the Gateway stays
    silent, or the file cannot be read) stays in [planning] or [restoring]
    with no error message. *)
Theorem settled_run_is_done_or_error w f r w' :
  imageFile (app w) = Some f ->
  handleRestore w = (r, w') ->
  match r with
  | Returned _ =>
      (status (app w') = AppStatus.done /\ error (app w') = None /\
       progressMessage (app w') = "Restoration complete!") \/
      (status (app w') = AppStatus.error /\
       exists message, error (app w') = Some message /\ message <> "")
  | Threw _ => False
  | Pending =>
      (status (app w') = AppStatus.planning \/
       status (app w') = AppStatus.restoring) /\
      error (app w') = None
  end.
Proof.
  intros Hf H.
  destruct (handleRestore_summary w Hf H)
    as (results & planning & steps & how & _ & _ & _ & _ & _ & _ & Hhow).
  rewrite (handleRestore_run w Hf) in H.
  destruct how.
  - destruct Hhow as (ai & plan & wp & vars & wl & Hp & Hl & _ & _ & Hs & He & ->).
    rewrite Hp, Hl in H. inversion H; subst w'. left. auto.
  - destruct Hhow as (ai & plan & wp & wl & _ & _ & _ & _ & Hs & He & ->).
    right. split; auto. eexists. split; eauto using shown_message_not_empty.
  - destruct Hhow as (ai & plan & wp & wl & _ & _ & _ & _ & Hs & He & ->). auto.
  - destruct Hhow as (wp & _ & _ & _ & Hs & He & ->).
    right. split; auto. eexists. split; eauto using shown_message_not_empty.
  - destruct Hhow as (wp & _ & _ & _ & Hs & He & ->). auto.
Qed.

(** X5. No error of a run is swallowed.  Whatever the planning phase or the
    loop throws, the run ends in [error], that very error is the last entry
    of the console, after what was logged before and nothing else, and the
    error message of the state is the message of that error, or the standard
    text when the error has an empty message.  Conversely, a run with an
    image ends in [error] only if its planning phase or its loop threw, and
    the error reported is the one thrown. *)
Theorem failed_run_reports_its_error w f r w' :
  imageFile (app w) = Some f ->
  handleRestore w = (r, w') ->
  (forall e wp,
      planning_phase f w = (Threw e, wp) ->
      status (app w') = AppStatus.error /\
      console w' = console wp ++ [(None, e)] /\
      error (app w') =
        Some (if String.eqb (err_message e) ""
              then "An unknown error occurred during the restoration process."
              else err_message e)) /\
  (forall ai plan wp e wl,
      planning_phase f w = (Returned (ai, plan), wp) ->
      restore_loop ai (userPrompt (app w)) (length plan) 0 plan
        (imagePreview (app w)) [] (loop_start wp) = (Threw e, wl) ->
      status (app w') = AppStatus.error /\
      console w' = console wl ++ [(None, e)] /\
      error (app w') =
        Some (if String.eqb (err_message e) ""
              then "An unknown error occurred during the restoration process."
              else err_message e)) /\
  (status (app w') = AppStatus.error ->
   exists e earlier,
     ((exists wp, planning_phase f w = (Threw e, wp)) \/
      (exists ai plan wp wl,
          planning_phase f w = (Returned (ai, plan), wp) /\
          restore_loop ai (userPrompt (app w)) (length plan) 0 plan
            (imagePreview (app w)) [] (loop_start wp) = (Threw e, wl))) /\
     console w' = earlier ++ [(None, e)] /\
     error (app w') =
       Some (if String.eqb (err_message e) ""
             then "An unknown error occurred during the restoration process."
             else err_message e)).
Proof.
  intros Hf H.
  rewrite (handleRestore_run w Hf) in H.
  destruct (planning_phase f w) as [rp wp] eqn:Hplan.
  pose proof (planning_phase_effect _ _ Hplan) as (Happ & _).
  destruct rp as [[ai plan] | e |].
  - destruct (restore_loop ai (userPrompt (app w)) (length plan) 0 plan
                (imagePreview (app w)) [] (loop_start wp)) as [rl wl] eqn:Hloop.
    pose proof Hloop as Hspec.
    apply restore_loop_spec in Hspec; [| cbn; now rewrite Happ].
    destruct Hspec as (new & _ & _ & _ & (_ & _ & _ & Hst & _) & _).
    cbn in Hst.
    split; [intros e0 wp0 Heq; discriminate |]. split.
    + intros ai0 plan0 wp0 e0 wl0 Heq Hloop0.
      inversion Heq; subst ai0 plan0 wp0.
      rewrite Hloop in Hloop0. inversion Hloop0; subst rl wl0.
      inversion H; subst r w'. repeat split.
    + intros Hstatus.
      destruct rl as [vars | e |]; inversion H; subst r w'.
      * cbn in Hstatus. discriminate.
      * exists e, (console wl). split; [| split; reflexivity].
        right. exists ai, plan, wp, wl. auto.
      * rewrite Hst in Hstatus. discriminate.
  - inversion H; subst r w'. split; [| split].
    + intros e0 wp0 Heq. inversion Heq; subst e0 wp0. repeat split.
    + intros ai0 plan0 wp0 e0 wl0 Heq. discriminate.
    + intros _. exists e, (console wp). split; [| split; reflexivity].
      left. eauto.
  - inversion H; subst r w'. split; [| split].
    + intros e0 wp0 Heq. discriminate.
    + intros ai0 plan0 wp0 e0 wl0 Heq. discriminate.
    + intros Hstatus. rewrite Happ in Hstatus. discriminate.
Qed.

Lemma status_calls_app l1 l2 :
  status_calls (l1 ++ l2) = status_calls l1 ++ status_calls l2.
Proof.
  induction l1 as [| c l1 IH]; simpl; auto.
  destruct c; simpl; auto. now rewrite IH.
Qed.

(** An iteration sets no status. *)
Lemma loop_body_status_calls ai up total idx p cur completed w r w' :
  loop_body ai up total idx p cur completed w = (r, w') ->
  status_calls (trace w') = status_calls (trace w).
Proof.
  unfold loop_body, set_state. intros H.
  run_cases H.
  all: repeat match goal with
         | E : generateStepPrompt _ _ _ _ _ = _ |- _ =>
             apply generateStepPrompt_effect in E;
             destruct E as (? & -> & ? & ?)
         | E : executeImageStep _ _ _ _ = _ |- _ =>
             apply executeImageStep_effect in E;
             destruct E as (? & -> & ? & ?)
         end.
  all: simpl; rewrite ?status_calls_app; simpl; rewrite ?app_nil_r; auto.
Qed.

Lemma restore_loop_status_calls ai up total plan :
  forall idx cur completed w r w',
    restore_loop ai up total idx plan cur completed w = (r, w') ->
    status_calls (trace w') = status_calls (trace w).
Proof.
  induction plan as [| p rest IH]; intros idx cur completed w r w' H.
  - inversion H; subst. reflexivity.
  - simpl in H. unfold bind in H.
    destruct (loop_body ai up total idx p cur completed w) as [r1 w1] eqn:Hbody.
    apply loop_body_status_calls in Hbody.
    destruct r1 as [vars | e |].
    + apply IH in H. congruence.
    + inversion H; subst. exact Hbody.
    + inversion H; subst. exact Hbody.
Qed.

(** X6. The statuses that a run sets follow the life cycle, in this order
    and with nothing in between: [idle] (the reset), [planning], then either
    [error], or [restoring] followed by [done] or by [error].  The loop
    itself sets no status.  Only a run that never returns stops after
    [planning] or after [restoring]. *)
Theorem run_sets_statuses_in_lifecycle_order w f r w' :
  imageFile (app w) = Some f ->
  handleRestore w = (r, w') ->
  exists set,
    status_calls (trace w') = status_calls (trace w) ++ set /\
    match r with
    | Returned _ =>
        set = [AppStatus.idle; AppStatus.planning; AppStatus.restoring;
               AppStatus.done] \/
        set = [AppStatus.idle; AppStatus.planning; AppStatus.restoring;
               AppStatus.error] \/
        set = [AppStatus.idle; AppStatus.planning; AppStatus.error]
    | Threw _ => False
    | Pending =>
        set = [AppStatus.idle; AppStatus.planning] \/
        set = [AppStatus.idle; AppStatus.planning; AppStatus.restoring]
    end.
Proof.
  intros Hf H.
  rewrite (handleRestore_run w Hf) in H.
  destruct (planning_phase f w) as [rp wp] eqn:Hplan.
  pose proof (planning_phase_effect _ _ Hplan) as (_ & Htr & _).
  assert (Hwp : status_calls (trace wp) =
                status_calls (trace w) ++ [AppStatus.idle; AppStatus.planning])
    by (rewrite Htr, begin_run_trace, status_calls_app; reflexivity).
  destruct rp as [[ai plan] | e |].
  - destruct (restore_loop ai (userPrompt (app w)) (length plan) 0 plan
                (imagePreview (app w)) [] (loop_start wp)) as [rl wl] eqn:Hloop.
    apply restore_loop_status_calls in Hloop.
    cbn in Hloop. rewrite status_calls_app, Hwp, <- app_assoc in Hloop.
    cbn in Hloop.
    destruct rl as [vars | e |]; inversion H; subst r w'; cbn.
    + eexists. split; [| left; reflexivity].
      rewrite <- app_assoc, status_calls_app, Hloop, <- app_assoc. reflexivity.
    + eexists. split; [| right; left; reflexivity].
      rewrite <- app_assoc, status_calls_app, Hloop, <- app_assoc. reflexivity.
    + eexists. split; [exact Hloop | right; reflexivity].
  - inversion H; subst r w'. cbn.
    eexists. split; [| right; right; reflexivity].
    rewrite <- app_assoc, status_calls_app, Hwp, <- app_assoc. reflexivity.
  - inversion H; subst r w'.
    eexists. split; [exact Hwp | left; reflexivity].
Qed.

Lemma built_from_bounded plan : forall cur new,
  built_from plan cur new -> length new <= length plan.
Proof.
  induction plan as [| p plan IH]; intros cur [| s new] H; simpl in *;
    try lia; try tauto.
  destruct H as (image & prompt & payload & _ & _ & H).
  apply IH in H. lia.
Qed.

(** X7. The results never outgrow the plan: in every run that obtained a
    plan, each published results sequence, and so the final one, has at most
    as many entries as the plan has steps. *)
Theorem results_never_exceed_plan w f r w' ai plan wp :
  imageFile (app w) = Some f ->
  handleRestore w = (r, w') ->
  planning_phase f w = (Returned (ai, plan), wp) ->
  length (restorationSteps (app w')) <= length plan /\
  exists new,
    published (trace w') = published (trace w) ++ new /\
    Forall (fun results => length results <= length plan) new.
Proof.
  intros Hf H Hplan.
  pose proof (handleRestore_built_plan w Hf H Hplan) as Hb.
  apply built_from_bounded in Hb. split; [exact Hb |].
  destruct (handleRestore_summary w Hf H)
    as (results & _ & _ & _ & Hres & Hpub & _).
  subst results. eexists. split; [exact Hpub |].
  constructor; [simpl; lia |].
  unfold growth. apply Forall_forall. intros l Hl.
  apply in_map_iff in Hl. destruct Hl as (k & <- & _).
  rewrite length_firstn. lia.
Qed.

(* ================================================================ *)
(** ** Further properties: the requests of a run *)
(* ================================================================ *)

(** The requests of one iteration. *)
Lemma loop_body_requests ai up total idx p cur completed w r w' :
  loop_body ai up total idx p cur completed w = (r, w') ->
  match r with
  | Returned vars =>
      exists image goal goalText prompt payload,
        cur = Some image /\
        get_property p "goal" = inr goal /\
        ToString goal = inr goalText /\
        requests w' =
          requests w ++ [promptRequest image goalText up; editRequest image prompt] /\
        vars = (Some (png_prefix ++ payload)%string,
                completed
                ++ [newStepOf p prompt cur (png_prefix ++ payload)%string])
  | _ => exists added, requests w' = requests w ++ added /\ length added <= 2
  end.
Proof.
  unfold loop_body, generateStepPrompt, executeImageStep, models_generateContent,
    base64ToGenerativePart, set_state.
  intros H. run_cases H.
  all: try (exists []; split; [cbn; now rewrite ?app_nil_r | simpl; lia]).
  all: try (eexists; split;
            [cbn; rewrite <- ?app_assoc; reflexivity | simpl; lia]).
  all: do 5 eexists; repeat split; eauto.
  all: try (cbn; rewrite <- app_assoc; reflexivity).
  all: instantiate (1 := "undefined"); reflexivity.
Qed.

Lemma restore_loop_requests ai up total plan :
  forall idx cur completed w r w',
    restore_loop ai up total idx plan cur completed w = (r, w') ->
    exists added,
      requests w' = requests w ++ added /\
      length added <= 2 * length plan /\
      (settled r = true ->
       map model added =
         flat_map (fun _ => ["gemini-2.5-pro"; "gemini-2.5-flash-image"]) plan).
Proof.
  induction plan as [| p rest IH]; intros idx cur completed w r w' H.
  - inversion H; subst. exists []. rewrite app_nil_r. auto.
  - simpl in H. unfold bind in H.
    destruct (loop_body ai up total idx p cur completed w) as [r1 w1] eqn:Hbody.
    apply loop_body_requests in Hbody.
    destruct r1 as [vars | e |].
    + destruct Hbody as (image & goal & goalText & prompt & payload
                         & _ & _ & _ & Hreq & _).
      apply IH in H. destruct H as (added & Hreq' & Hlen & Hmodels).
      exists ([promptRequest image goalText up; editRequest image prompt] ++ added).
      rewrite Hreq', Hreq, <- app_assoc.
      split; [reflexivity |]. split; [simpl in *; lia |].
      intros Hs. simpl. now rewrite (Hmodels Hs).
    + inversion H; subst. destruct Hbody as (added & Hreq & Hlen).
      exists added. split; [exact Hreq |]. split; [simpl; lia | discriminate].
    + inversion H; subst. destruct Hbody as (added & Hreq & Hlen).
      exists added. split; [exact Hreq |]. split; [simpl; lia | discriminate].
Qed.

Lemma generateRestorationPlan_request ai f up w plan w' :
  generateRestorationPlan ai f up w = (Returned plan, w') ->
  exists request,
    requests w' = requests w ++ [request] /\ model request = "gemini-2.5-pro".
Proof.
  unfold generateRestorationPlan, fileToGenerativePart, models_generateContent,
    console_error.
  intros H. run_cases H.
  all: eexists; split; reflexivity.
Qed.

Lemma planning_phase_request f w ai plan wp :
  planning_phase f w = (Returned (ai, plan), wp) ->
  exists request,
    requests wp = requests w ++ [request] /\ model request = "gemini-2.5-pro".
Proof.
  unfold planning_phase, bind, ret. intros H.
  destruct (getAiClient (begin_run w)) as [r1 w1] eqn:Hc.
  apply getAiClient_effect in Hc. destruct Hc as (_ & _ & Hr & _).
  rewrite begin_run_requests in Hr.
  destruct r1 as [ai1 | e |]; try discriminate.
  destruct (generateRestorationPlan ai1 f (userPrompt (app w)) w1)
    as [r2 w2] eqn:Hp.
  destruct r2 as [plan2 | e |]; try discriminate.
  inversion H; subst.
  apply generateRestorationPlan_request in Hp.
  destruct Hp as (request & Hreq & Hm). rewrite Hr in Hreq. eauto.
Qed.

(** X8. The Gateway calls of a run are bounded by its plan: a run with a plan
    of N steps sends at most 1 + 2N requests, and a run that ends in [done]
    has sent exactly these, in this order: the planning request to
    [gemini-2.5-pro], then for each step a prompt request to [gemini-2.5-pro]
    followed by an edit request to [gemini-2.5-flash-image].  A run whose
    planning fails sends at most one request.  Nothing is retried. *)
Theorem run_sends_one_plus_two_requests_per_step w f r w' :
  imageFile (app w) = Some f ->
  handleRestore w = (r, w') ->
  exists added,
    requests w' = requests w ++ added /\
    (forall ai plan wp,
        planning_phase f w = (Returned (ai, plan), wp) ->
        length added <= 1 + 2 * length plan /\
        (status (app w') = AppStatus.done ->
         map model added =
           "gemini-2.5-pro"
             :: flat_map (fun _ => ["gemini-2.5-pro"; "gemini-2.5-flash-image"])
                  plan)) /\
    (forall e wp, planning_phase f w = (Threw e, wp) -> length added <= 1).
Proof.
  intros Hf H.
  rewrite (handleRestore_run w Hf) in H.
  destruct (planning_phase f w) as [rp wp] eqn:Hplan.
  pose proof (planning_phase_effect _ _ Hplan)
    as (Happ & _ & (planning & Hreq & Hlen & _) & _).
  destruct rp as [[ai plan] | e |].
  - destruct (planning_phase_request _ _ Hplan) as (request & Hreq1 & Hmodel).
    destruct (restore_loop ai (userPrompt (app w)) (length plan) 0 plan
                (imagePreview (app w)) [] (loop_start wp)) as [rl wl] eqn:Hloop.
    pose proof Hloop as Hspec.
    apply restore_loop_spec in Hspec; [| cbn; now rewrite Happ].
    destruct Hspec as (_ & _ & _ & _ & (_ & _ & _ & Hst & _) & _).
    cbn in Hst.
    apply restore_loop_requests in Hloop.
    destruct Hloop as (added & Hreq2 & Hlen2 & Hmodels).
    cbn in Hreq2. rewrite Hreq1, <- app_assoc in Hreq2.
    exists ([request] ++ added).
    assert (Hw' : requests w' = requests wl /\
                  (status (app w') = AppStatus.done -> settled rl = true)).
    { destruct rl; inversion H; subst r w'; cbn; split; auto.
      - discriminate.
      - rewrite Hst. discriminate. }
    destruct Hw' as (Hw' & Hdone).
    split; [congruence |]. split.
    + intros ai' plan' wp' Heq. inversion Heq; subst ai' plan' wp'.
      split; [simpl; lia |].
      intros Hd. simpl. rewrite Hmodel, (Hmodels (Hdone Hd)). reflexivity.
    + intros e wp' Heq. discriminate.
  - inversion H; subst r w'. exists planning. cbn.
    split; [exact Hreq |]. split; [intros ? ? ? Heq; discriminate | auto].
  - inversion H; subst r w'. exists planning.
    split; [exact Hreq |]. split; intros; discriminate.
Qed.

Lemma prompt_newStepOf p prompt cur img :
  Obj.get "prompt" (newStepOf p prompt cur img) = JStr prompt.
Proof.
  unfold newStepOf. rewrite !get_set_other by reflexivity. apply get_set_same.
Qed.

(** X9. A completed step matches its requests: the iteration has sent two
    requests, the prompt request and then the edit request; both carry the
    image that the new entry records as [beforeImage], the prompt request
    quotes the goal of the plan step, and the edit request carries the prompt
    that the new entry records. *)
Theorem completed_step_matches_its_requests
    ai up total idx p cur completed w vars w' :
  loop_body ai up total idx p cur completed w = (Returned vars, w') ->
  exists image goal goalText prompt entry,
    get_property p "goal" = inr goal /\
    ToString goal = inr goalText /\
    requests w' =
      requests w ++ [promptRequest image goalText up; editRequest image prompt] /\
    snd vars = completed ++ [entry] /\
    beforeImage entry = JStr image /\
    Obj.get "prompt" entry = JStr prompt /\
    fst vars = match afterImage entry with
               | JStr newImage => Some newImage
               | _ => None
               end.
Proof.
  intros H. apply loop_body_requests in H.
  destruct H as (image & goal & goalText & prompt & payload
                 & -> & Hg & Ht & Hreq & ->).
  exists image, goal, goalText, prompt. eexists.
  repeat split; eauto.
  - now rewrite beforeImage_newStepOf.
  - apply prompt_newStepOf.
  - simpl. now rewrite afterImage_newStepOf.
Qed.

(* ================================================================ *)
(** ** Further properties: entries and images *)
(* ================================================================ *)

Lemma get_newStepOf_other k props prompt cur img :
  String.eqb k "prompt" = false ->
  String.eqb k "beforeImage" = false ->
  String.eqb k "afterImage" = false ->
  Obj.get k (newStepOf (JObj props) prompt cur img) = Obj.get k props.
Proof.
  intros H1 H2 H3. unfold newStepOf.
  rewrite !get_set_other by assumption. reflexivity.
Qed.

(** X10. An entry keeps what the plan step says and owns its three fields:
    in every run, the entry at a position where the plan has an object has,
    under every key other than [prompt], [beforeImage] and [afterImage], the
    value that the plan step has there (so the goal of the plan step and
    whatever else the Gateway put into it), while those three fields are
    strings set by the loop even when the plan step has keys of the same
    name. *)
Theorem entries_keep_plan_fields w f r w' ai plan wp :
  imageFile (app w) = Some f ->
  handleRestore w = (r, w') ->
  planning_phase f w = (Returned (ai, plan), wp) ->
  forall i s props,
    nth_error (restorationSteps (app w')) i = Some s ->
    nth_error plan i = Some (JObj props) ->
    (forall k,
        String.eqb k "prompt" = false ->
        String.eqb k "beforeImage" = false ->
        String.eqb k "afterImage" = false ->
        Obj.get k s = Obj.get k props) /\
    exists prompt before after,
      Obj.get "prompt" s = JStr prompt /\
      beforeImage s = JStr before /\
      afterImage s = JStr after.
Proof.
  intros Hf H Hplan i s props Hs Hp.
  pose proof (handleRestore_built_plan w Hf H Hplan) as Hb.
  revert Hb Hs Hp. generalize (imagePreview (app w)) as cur.
  generalize (restorationSteps (app w')) as results.
  clear. revert i.
  induction plan as [| p plan IH]; intros i results cur Hb Hs Hp.
  - destruct i; discriminate.
  - destruct results as [| s0 results]; [destruct i; discriminate |].
    simpl in Hb. destruct Hb as (image & prompt & payload & -> & -> & Hb).
    destruct i as [| i]; simpl in Hs, Hp.
    + inversion Hs; subst s. inversion Hp; subst p. split.
      * intros k H1 H2 H3. now apply get_newStepOf_other.
      * exists prompt, image, (png_prefix ++ payload)%string.
        rewrite prompt_newStepOf, beforeImage_newStepOf, afterImage_newStepOf.
        auto.
    + eapply IH; eauto.
Qed.

Lemma split_comma_free s :
  comma_free s = true -> JsString.split "," s = [s].
Proof.
  induction s as [| c s IH]; simpl; auto.
  intros H. apply andb_true_iff in H. destruct H as (Hc & Hs).
  apply negb_true_iff in Hc. rewrite Hc, (IH Hs). reflexivity.
Qed.

Lemma split_after_header header rest :
  comma_free header = true ->
  JsString.split "," (header ++ String "," rest)%string =
    header :: JsString.split "," rest.
Proof.
  induction header as [| c header IH]; intros H.
  - reflexivity.
  - cbn [comma_free] in H. apply andb_true_iff in H. destruct H as (Hc & Hs).
    apply negb_true_iff in Hc.
    cbn [String.append JsString.split]. rewrite Hc, (IH Hs). reflexivity.
Qed.

(** X11. The image that the edit operation returns survives the way back to
    the Gateway: when the payload of the response holds no comma (base64
    never does), the image part that the next step builds from the returned
    data URL carries exactly that payload, declared as PNG. *)
Theorem edited_image_round_trip ai cur prompt w newImage w' :
  executeImageStep ai cur prompt w = (Returned newImage, w') ->
  exists payload,
    newImage = ("data:image/png;base64," ++ payload)%string /\
    (comma_free payload = true ->
     base64ToGenerativePart (Some newImage) None =
       inr (mkPart None (Some (mkBlob (Some payload) (Some "image/png"))))).
Proof.
  intros H. apply executeImageStep_effect in H.
  destruct H as (_ & _ & _ & payload & ->).
  exists payload. split; [reflexivity |].
  intros Hfree. unfold base64ToGenerativePart.
  change (png_prefix ++ payload)%string
    with ("data:image/png;base64" ++ String "," payload)%string.
  rewrite split_after_header by reflexivity.
  rewrite (@split_comma_free payload Hfree). reflexivity.
Qed.

(** X12. What the image part carries, by the shape of the string: [null]
    makes the operation throw; a string without a comma gives a part without
    data; and after a header without a comma the data is the text up to the
    next comma, so a payload that holds a comma is cut there. *)
Theorem image_part_data_is_second_comma_field :
  (exists e, base64ToGenerativePart None None = inl e) /\
  (forall s,
      comma_free s = true ->
      base64ToGenerativePart (Some s) None =
        inr (mkPart None (Some (mkBlob None (Some "image/png"))))) /\
  (forall header payload rest,
      comma_free header = true ->
      comma_free payload = true ->
      base64ToGenerativePart
        (Some (header ++ "," ++ payload ++ "," ++ rest)%string) None =
        inr (mkPart None (Some (mkBlob (Some payload) (Some "image/png"))))).
Proof.
  split; [eexists; reflexivity |]. split.
  - intros s Hs. unfold base64ToGenerativePart.
    now rewrite (@split_comma_free s Hs).
  - intros header payload rest Hh Hp. unfold base64ToGenerativePart.
    change (header ++ "," ++ payload ++ "," ++ rest)%string
      with (header ++ String "," (payload ++ String "," rest))%string.
    rewrite (@split_after_header header _ Hh), (@split_after_header payload _ Hp).
    reflexivity.
Qed.

(* ================================================================ *)
(** ** Further properties: runs on unusual inputs *)
(* ================================================================ *)

(** X13. A file that cannot be read leaves the run hanging: when the client
    is available and reading the picked file fails, [handleRestore] never
    returns; the status stays [planning] with the planning progress text, the
    state shows no error, nothing goes to [console.error], and no request is
    sent. *)
Theorem unreadable_file_leaves_run_pending w f :
  imageFile (app w) = Some f ->
  reader_result f = None ->
  aiRef w <> None \/ falsy (API_KEY w) = false ->
  fst (handleRestore w) = Pending /\
  status (app (snd (handleRestore w))) = AppStatus.planning /\
  progressMessage (app (snd (handleRestore w))) = "Generating restoration plan..." /\
  error (app (snd (handleRestore w))) = None /\
  restorationSteps (app (snd (handleRestore w))) = [] /\
  requests (snd (handleRestore w)) = requests w /\
  console (snd (handleRestore w)) = console w.
Proof.
  intros Hf Hread Hclient.
  unfold handleRestore. rewrite Hf.
  unfold try_catch, bind, getAiClient, generateRestorationPlan,
    fileToGenerativePart, resetState, set_state, bind.
  rewrite Hread. cbn.
  destruct (aiRef w) as [ai |] eqn:Href.
  - cbn. auto 10.
  - destruct Hclient as [Hc | Hc]; [congruence |].
    rewrite Hc. cbn. auto 10.
Qed.

(** An iteration without a current image throws before it sends anything. *)
Lemma loop_body_without_image ai up total idx p completed w :
  exists e w1,
    loop_body ai up total idx p None completed w = (Threw e, w1) /\
    requests w1 = requests w /\
    restorationSteps (app w1) = restorationSteps (app w) /\
    published (trace w1) = published (trace w).
Proof.
  unfold loop_body, generateStepPrompt, base64ToGenerativePart, set_state,
    bind, lift, throw, ret.
  destruct (get_property p "goal") as [e | goal].
  - do 2 eexists. repeat split.
  - destruct (ToString goal) as [e | goalText].
    + do 2 eexists. repeat split.
    + do 2 eexists. split; [reflexivity |]. cbn.
      rewrite published_app. cbn. rewrite app_nil_r. auto.
Qed.

(** X14. A run that starts before any preview has loaded fails in its first
    step: with the preview still [null] and a plan obtained, the run ends in
    [error] with no entry, and the planning request is the only request it
    has sent. *)
Theorem run_without_preview_fails_at_first_step w f r w' ai plan wp :
  imageFile (app w) = Some f ->
  imagePreview (app w) = None ->
  handleRestore w = (r, w') ->
  planning_phase f w = (Returned (ai, plan), wp) ->
  r = Returned tt /\
  status (app w') = AppStatus.error /\
  restorationSteps (app w') = [] /\
  requests w' = requests wp /\
  exists request, requests wp = requests w ++ [request].
Proof.
  intros Hf Hpreview H Hplan.
  rewrite (handleRestore_run w Hf), Hplan, Hpreview in H.
  pose proof (planning_phase_effect _ _ Hplan) as (Happ & _ & _ & Hne).
  destruct (planning_phase_request _ _ Hplan) as (request & Hreq & _).
  destruct plan as [| p rest]; [congruence |].
  cbn [restore_loop] in H. unfold bind in H.
  destruct (loop_body_without_image ai (userPrompt (app w))
              (length (p :: rest)) 0 p [] (loop_start wp))
    as (e & w1 & Hbody & Hr & Hs & _).
  rewrite Hbody in H. inversion H; subst r w'.
  split; [reflexivity |]. split; [reflexivity |].
  split; [cbn; rewrite Hs; cbn; now rewrite Happ |].
  split; [cbn; rewrite Hr; reflexivity | eauto].
Qed.



(** A run edits the preview it finds, and plans with the file it finds. *)
Lemma run_uses_preview_and_file w0 f old r w' :
  imageFile (app w0) = Some f ->
  imagePreview (app w0) = Some old ->
  handleRestore w0 = (r, w') ->
  (forall s, nth_error (restorationSteps (app w')) 0 = Some s ->
             beforeImage s = JStr old) /\
  exists planning steps,
    requests w' = requests w0 ++ planning ++ steps /\
    length planning <= 1 /\
    Forall (fun request =>
              declared_media_types request = [Some (file_type f)]) planning /\
    Forall sends_png steps.
Proof.
  intros Hf Hp H. split.
  - destruct (handleRestore_built w0 Hf H) as (plan & Hb).
    rewrite Hp in Hb. intros s Hs'.
    destruct (restorationSteps (app w')) as [| s0 rest]; [discriminate |].
    inversion Hs'; subst s0.
    destruct (built_from_first _ _ _ _ Hb) as (image & Himage & Hbefore).
    inversion Himage; subst image. exact Hbefore.
  - destruct (handleRestore_summary w0 Hf H)
      as (results & planning & steps & how & _ & _ & Hreq & Hlen & Hpl & Hst & _).
    exists planning, steps. auto.
Qed.


(** When the preview is the data URL of the picked file, as it is once the
    file has been read, a completed run starts from the uploaded image: the
    first entry's [beforeImage] is that data URL, and each further entry
    starts from the image that the entry before it produced. *)
Lemma completed_run_chains_from_uploaded_file w f url r w' :
  imageFile (app w) = Some f ->
  reader_result f = Some url ->
  imagePreview (app w) = reader_result f ->
  handleRestore w = (r, w') ->
  status (app w') = AppStatus.done ->
  (forall s, nth_error (restorationSteps (app w')) 0 = Some s ->
             beforeImage s = JStr url) /\
  (forall i s t, nth_error (restorationSteps (app w')) i = Some s ->
                 nth_error (restorationSteps (app w')) (S i) = Some t ->
                 afterImage s = beforeImage t).
Proof.
  intros Hf Hurl Hpreview H _.
  rewrite Hurl in Hpreview.
  destruct (handleRestore_built w Hf H) as (plan & Hb). split.
  - exact (proj1 (run_uses_preview_and_file w Hf Hpreview H)).
  - intros i s t Hs Ht.
    eapply chained_adjacent; eauto using built_from_chained.
Qed.

(** X16. After Start Over nothing can run: [handleStartOver] clears the file,
    the preview, the instructions and the run state; in the state it leaves,
    [handleRestore] does nothing, no button is rendered, and the results
    column shows only the placeholder. *)
Theorem start_over_then_restore_does_nothing w r1 w1 :
  handleStartOver w = (r1, w1) ->
  handleRestore w1 = (Returned tt, w1) /\
  imageFile (app w1) = None /\
  imagePreview (app w1) = None /\
  userPrompt (app w1) = "" /\
  restoreButton (render (app w1)) = None /\
  startOverButton (render (app w1)) = false /\
  stepCardList (render (app w1)) = [] /\
  placeholder (render (app w1)) = true.
Proof. intros H. inversion H; subst. repeat split. Qed.


(* ================================================================ *)
(** ** Further properties: what is rendered *)
(* ================================================================ *)

(** X17. No run can be started while one is in flight, and no run can be
    started twice: while the status is [planning] or [restoring] neither
    button is rendered and the file input and the instructions field are
    disabled; the two buttons are never rendered together; the Restore
    button is rendered only in the status [idle] with a file present, and
    then it is never disabled; the Start Over button is rendered exactly in
    the statuses [done] and [error]. *)
Theorem controls_follow_the_status a :
  (isProcessing a = true ->
   restoreButton (render a) = None /\
   startOverButton (render a) = false /\
   fileInputDisabled (render a) = true /\
   promptDisabled (render a) = true /\
   processingPanel (render a) = Some (progressMessage a)) /\
  (restoreButton (render a) <> None -> startOverButton (render a) = false) /\
  (forall disabled,
      restoreButton (render a) = Some disabled ->
      disabled = false /\ status a = AppStatus.idle /\ imageFile a <> None) /\
  (startOverButton (render a) = true <->
   status a = AppStatus.done \/ status a = AppStatus.error).
Proof.
  unfold render, isProcessing. cbn.
  destruct (status a); destruct (imageFile a); cbn;
    repeat split; try discriminate; try congruence; auto.
  all: try (intros H; inversion H; reflexivity).
  all: try (intros [H | H]; discriminate).
Qed.

Lemma stepCards_nil index total steps :
  stepCards index total steps = [] <-> steps = [].
Proof. destruct steps; simpl; split; auto; discriminate. Qed.

(** X18. The results column is never empty and never shows the placeholder
    beside something else: the placeholder is rendered exactly when the
    processing panel, the error banner and the step cards are all absent.
    The error banner is rendered exactly for an error message that is not
    empty, and shows it. *)
Theorem placeholder_iff_nothing_else a :
  (placeholder (render a) = true <->
   processingPanel (render a) = None /\
   errorBanner (render a) = None /\
   stepCardList (render a) = []) /\
  (forall message,
      errorBanner (render a) = Some message <->
      error a = Some message /\ message <> "").
Proof.
  unfold render. cbn. split.
  - rewrite stepCards_nil.
    destruct (isProcessing a); destruct (truthy (error a));
      destruct (restorationSteps a); cbn; split; try tauto; try discriminate.
    all: intros (H1 & H2 & H3); discriminate.
  - intros message. unfold truthy, falsy.
    destruct (error a) as [m |]; cbn.
    + destruct (String.eqb m "") eqn:E; cbn.
      * apply String.eqb_eq in E. subst m. split; [discriminate |].
        intros (H & Hne). inversion H; subst. congruence.
      * apply String.eqb_neq in E. split.
        -- intros H. inversion H; subst. auto.
        -- intros (H & _). exact H.
    + split; [discriminate | intros (H & _); discriminate].
Qed.

Lemma stepCards_spec steps : forall index total,
  map card_step (stepCards index total steps) = steps /\
  forall i c,
    nth_error (stepCards index total steps) i = Some c ->
    card_isLast c = (index + i =? total - 1)%nat.
Proof.
  induction steps as [| s steps IH]; intros index total; simpl.
  - split; auto. intros [| i] c H; discriminate.
  - destruct (IH (S index) total) as (Hmap & Hlast). split.
    + now rewrite Hmap.
    + intros [| i] c H; simpl in H.
      * inversion H; subst. simpl. now rewrite Nat.add_0_r.
      * rewrite (Hlast _ _ H). f_equal. lia.
Qed.

(** X19. The step cards are the results, in order, one card per entry, and
    exactly the card of the last entry is marked as the last. *)
Theorem cards_show_results_and_mark_the_last a :
  map card_step (stepCardList (render a)) = restorationSteps a /\
  forall i c,
    nth_error (stepCardList (render a)) i = Some c ->
    (card_isLast c = true <-> S i = length (restorationSteps a)).
Proof.
  unfold render. cbn.
  destruct (stepCards_spec (restorationSteps a) 0
              (length (restorationSteps a))) as (Hmap & Hlast).
  split; [exact Hmap |].
  intros i c H. rewrite (Hlast _ _ H). simpl.
  assert (Hi : i < length (restorationSteps a)).
  { rewrite <- Hmap at 1. rewrite length_map.
    apply nth_error_Some. congruence. }
  rewrite Nat.eqb_eq. lia.
Qed.

(** How the final state of a run that returns looks. *)
Lemma returned_run_state w f w' :
  imageFile (app w) = Some f ->
  handleRestore w = (Returned tt, w') ->
  (status (app w') = AppStatus.done /\ error (app w') = None /\
   restorationSteps (app w') <> []) \/
  (status (app w') = AppStatus.error /\
   exists message, error (app w') = Some message /\ message <> "").
Proof.
  intros Hf H.
  destruct (handleRestore_summary w Hf H)
    as (results & planning & steps & how & Hres & _ & _ & _ & _ & _ & Hhow).
  destruct how.
  - destruct Hhow as (ai & plan & wp & vars & wl & Hp & _ & _ & Hlen & Hs & He & _).
    left. split; [exact Hs |]. split; [exact He |].
    pose proof (planning_phase_effect _ _ Hp) as (_ & _ & _ & Hne).
    rewrite Hres. destruct results; [| discriminate].
    destruct plan; [congruence | discriminate].
  - destruct Hhow as (ai & plan & wp & wl & _ & _ & _ & _ & Hs & He & _).
    right. split; auto. eexists. split; eauto using shown_message_not_empty.
  - destruct Hhow as (ai & plan & wp & wl & _ & _ & _ & _ & _ & _ & Hr).
    discriminate.
  - destruct Hhow as (wp & _ & _ & _ & Hs & He & _).
    right. split; auto. eexists. split; eauto using shown_message_not_empty.
  - destruct Hhow as (wp & _ & _ & _ & _ & _ & Hr). discriminate.
Qed.

(** X20. After a run has returned, the only action offered is Start Over:
    the Restore button is gone although the file is still present, the
    processing panel is gone and the inputs are enabled again, the
    placeholder is not shown, and the error banner shows the error message
    of the state exactly when the run has failed. *)
Theorem returned_run_offers_only_start_over w f w' :
  imageFile (app w) = Some f ->
  handleRestore w = (Returned tt, w') ->
  restoreButton (render (app w')) = None /\
  startOverButton (render (app w')) = true /\
  processingPanel (render (app w')) = None /\
  fileInputDisabled (render (app w')) = false /\
  promptDisabled (render (app w')) = false /\
  placeholder (render (app w')) = false /\
  errorBanner (render (app w')) = error (app w') /\
  (errorBanner (render (app w')) = None <-> status (app w') = AppStatus.done).
Proof.
  intros Hf H.
  destruct (returned_run_state w Hf H)
    as [(Hs & He & Hne) | (Hs & message & He & Hne)];
    unfold render, isProcessing, truthy, falsy; cbn; rewrite Hs, He; cbn.
  - destruct (restorationSteps (app w')); [congruence |]. cbn.
    repeat split; auto.
  - apply String.eqb_neq in Hne. rewrite Hne. cbn.
    repeat split; auto using andb_false_r; discriminate.
Qed.

(* ================================================================ *)
(** ** Further properties: the Gateway operations *)
(* ================================================================ *)

Lemma trimStart_cases s :
  JsString.trimStart s = EmptyString \/
  exists c rest,
    JsString.trimStart s = String c rest /\ JsString.is_white c = false.
Proof.
  induction s as [| c s IH]; simpl; auto.
  destruct (JsString.is_white c) eqn:E; auto.
  right. eauto.
Qed.

Lemma trimEnd_last_char s :
  match last_char (JsString.trimEnd s) with
  | Some c => JsString.is_white c = false
  | None => True
  end.
Proof.
  induction s as [| c s IH]; cbn [JsString.trimEnd]; [exact I |].
  destruct (JsString.trimEnd s) as [| k kept] eqn:E.
  - destruct (JsString.is_white c) eqn:Hc; simpl; auto.
  - exact IH.
Qed.

Lemma trim_is_trimmed s : trimmed (JsString.trim s) = true.
Proof.
  unfold JsString.trim.
  destruct (trimStart_cases s) as [-> | (c & rest & -> & Hc)]; [reflexivity |].
  pose proof (trimEnd_last_char (String c rest)) as Hlast.
  cbn [JsString.trimEnd] in *. rewrite Hc in *.
  assert (Heq : match JsString.trimEnd rest with
                | EmptyString => String c EmptyString
                | String k kept => String c (String k kept)
                end = String c (JsString.trimEnd rest))
    by (destruct (JsString.trimEnd rest); reflexivity).
  rewrite Heq in *. unfold trimmed. rewrite Hc.
  destruct (last_char (String c (JsString.trimEnd rest))); [| reflexivity].
  now rewrite Hlast.
Qed.

(** X21. A prompt that the prompt operation returns has no white space at
    either end (it may be empty): the text of the response is returned
    trimmed. *)
Theorem generated_prompt_is_trimmed ai cur goal up w prompt w' :
  generateStepPrompt ai cur goal up w = (Returned prompt, w') ->
  trimmed prompt = true.
Proof.
  unfold generateStepPrompt, models_generateContent. intros H.
  run_cases H. apply trim_is_trimmed.
Qed.

(** X22. None of the three Gateway operations retries or sends anything
    besides its one request: a call sends at most one request, and exactly
    one when it returns; a rejected or unanswered request is not repeated. *)
Theorem gateway_operations_send_one_request :
  (forall ai f up w r w',
      generateRestorationPlan ai f up w = (r, w') ->
      exists added,
        requests w' = requests w ++ added /\ length added <= 1 /\
        (settled r = true -> length added = 1)) /\
  (forall ai cur goal up w r w',
      generateStepPrompt ai cur goal up w = (r, w') ->
      exists added,
        requests w' = requests w ++ added /\ length added <= 1 /\
        (settled r = true -> length added = 1)) /\
  (forall ai cur prompt w r w',
      executeImageStep ai cur prompt w = (r, w') ->
      exists added,
        requests w' = requests w ++ added /\ length added <= 1 /\
        (settled r = true -> length added = 1)).
Proof.
  split; [| split].
  - unfold generateRestorationPlan, fileToGenerativePart, models_generateContent,
      console_error.
    intros ai f up w r w' H. run_cases H.
    all: try (exists []; cbn; rewrite app_nil_r; repeat split; auto; discriminate).
    all: eexists [_]; cbn; repeat split; auto.
  - unfold generateStepPrompt, models_generateContent.
    intros ai cur goal up w r w' H. run_cases H.
    all: try (exists []; cbn; rewrite app_nil_r; repeat split; auto; discriminate).
    all: eexists [_]; cbn; repeat split; auto.
  - unfold executeImageStep, models_generateContent.
    intros ai cur prompt w r w' H. run_cases H.
    all: try (exists []; cbn; rewrite app_nil_r; repeat split; auto; discriminate).
    all: eexists [_]; cbn; repeat split; auto.
Qed.

(* ================================================================ *)
(** ** Further properties: what the loop reports *)
(* ================================================================ *)

Lemma loop_body_calls ai up total idx p cur completed w r w' :
  idx < total ->
  loop_body ai up total idx p cur completed w = (r, w') ->
  exists calls, trace w' = trace w ++ calls /\ Forall (loop_call total) calls.
Proof.
  intros Hidx. unfold loop_body, set_state. intros H.
  run_cases H.
  all: repeat match goal with
         | E : generateStepPrompt _ _ _ _ _ = _ |- _ =>
             apply generateStepPrompt_effect in E;
             destruct E as (? & -> & ? & ?)
         | E : executeImageStep _ _ _ _ = _ |- _ =>
             apply executeImageStep_effect in E;
             destruct E as (? & -> & ? & ?)
         end.
  all: try (exists []; split; [cbn; now rewrite ?app_nil_r | constructor]).
  all: eexists; split; [cbn; rewrite <- ?app_assoc; reflexivity |].
  all: repeat constructor; cbn; eauto 6.
Qed.

Lemma restore_loop_calls ai up total plan :
  forall idx cur completed w r w',
    idx + length plan <= total ->
    restore_loop ai up total idx plan cur completed w = (r, w') ->
    exists calls, trace w' = trace w ++ calls /\ Forall (loop_call total) calls.
Proof.
  induction plan as [| p rest IH]; intros idx cur completed w r w' Hidx H.
  - inversion H; subst. exists []. rewrite app_nil_r. auto.
  - simpl in H, Hidx. unfold bind in H.
    destruct (loop_body ai up total idx p cur completed w) as [r1 w1] eqn:Hbody.
    apply loop_body_calls in Hbody; [| lia].
    destruct Hbody as (calls & Htr & Hcalls).
    destruct r1 as [vars | e |].
    + apply IH in H; [| lia]. destruct H as (calls' & Htr' & Hcalls').
      exists (calls ++ calls'). rewrite Htr', Htr, app_assoc.
      split; auto. apply Forall_app; auto.
    + inversion H; subst. eauto.
    + inversion H; subst. eauto.
Qed.

(** X23. Between entering [restoring] and its end, a run reports only
    progress and results: every setter call of the loop is either a
    publication of the results or a progress message of the form
    [Step i/N: ...] with N the number of plan steps and 1 <= i <= N.  The
    loop sets no status, no error, no file, no preview and no instructions;
    the run ends with at most two further calls (the final status with the
    completion text or with the error message). *)
Theorem loop_reports_only_progress_and_results w f r w' ai plan wp :
  imageFile (app w) = Some f ->
  handleRestore w = (r, w') ->
  planning_phase f w = (Returned (ai, plan), wp) ->
  exists calls ending,
    trace w' =
      trace w
      ++ [SetStatus AppStatus.idle; SetError None; SetRestorationSteps [];
          SetProgressMessage ""; SetStatus AppStatus.planning;
          SetProgressMessage "Generating restoration plan...";
          SetStatus AppStatus.restoring]
      ++ calls ++ ending /\
    Forall (loop_call (length plan)) calls /\
    (ending = [] \/
     ending = [SetStatus AppStatus.done;
               SetProgressMessage "Restoration complete!"] \/
     exists message,
       ending = [SetError (Some message); SetStatus AppStatus.error]).
Proof.
  intros Hf H Hplan.
  rewrite (handleRestore_run w Hf), Hplan in H.
  pose proof (planning_phase_effect _ _ Hplan) as (_ & Htr & _).
  destruct (restore_loop ai (userPrompt (app w)) (length plan) 0 plan
              (imagePreview (app w)) [] (loop_start wp)) as [rl wl] eqn:Hloop.
  apply restore_loop_calls in Hloop; [| simpl; lia].
  destruct Hloop as (calls & Hcalls & Hall).
  cbn in Hcalls. rewrite Htr, begin_run_trace, <- app_assoc in Hcalls.
  cbn in Hcalls.
  exists calls.
  destruct rl as [vars | e |]; inversion H; subst r w'; cbn.
  - eexists. split; [| split; [exact Hall | right; left; reflexivity]].
    rewrite <- !app_assoc, Hcalls, <- !app_assoc. reflexivity.
  - eexists. split; [| split; [exact Hall | right; right; eexists; reflexivity]].
    rewrite <- !app_assoc, Hcalls, <- !app_assoc. reflexivity.
  - exists []. split; [| split; [exact Hall | left; reflexivity]].
    rewrite Hcalls, app_nil_r, <- !app_assoc. reflexivity.
Qed.
End WithEnvironment.

(* ================================================================== *)
(** ** The properties on concrete runs *)
(* ================================================================== *)

Local Open Scope list_scope.

(** A run of the component against a scripted Gateway. *)
Local Abbreviation run answers :=
  (handleRestore Sample.JSON_parse Sample.ToString_other (Sample.scripted answers)).

Local Abbreviation planningOf answers :=
  (planning_phase Sample.JSON_parse (Sample.scripted answers)).

Local Abbreviation client := (mkClient "test-key").

Local Abbreviation previewURL := "data:image/jpeg;base64,/9j/4AAQSkZJRg==".

(** The scenario of the specification ends in [done] with two entries, the
    second of which starts from the image that the first produced. *)
Lemma completed_run_chains_images_witness :
  imageFile (app Sample.ready) = Some Sample.photo /\
  status (app (snd (run Sample.twoSteps Sample.ready))) = AppStatus.done /\
  (forall s,
      nth_error (restorationSteps (app (snd (run Sample.twoSteps Sample.ready)))) 0
        = Some s ->
      exists image,
        imagePreview (app Sample.ready) = Some image /\
        beforeImage s = JStr image) /\
  (forall i s t,
      nth_error (restorationSteps (app (snd (run Sample.twoSteps Sample.ready)))) i
        = Some s ->
      nth_error (restorationSteps (app (snd (run Sample.twoSteps Sample.ready))))
        (S i) = Some t ->
      afterImage s = beforeImage t).
Proof.
  split; [reflexivity |]. split; [vm_compute; reflexivity |].
  apply (@completed_run_chains_images
           Sample.JSON_parse Sample.ToString_other
           (Sample.scripted Sample.twoSteps)
           Sample.ready Sample.photo
           (fst (run Sample.twoSteps Sample.ready))
           (snd (run Sample.twoSteps Sample.ready))).
  - reflexivity.
  - apply surjective_pairing.
  - vm_compute; reflexivity.
Defined.

(** Without a file, a run changes nothing. *)
Lemma handleRestore_without_image_is_noop_witness :
  imageFile (app Sample.empty) = None /\
  run Sample.twoSteps Sample.empty = (Returned tt, Sample.empty).
Proof.
  split; [reflexivity |].
  apply handleRestore_without_image_is_noop. reflexivity.
Defined.

(** The three ways a run can go, on the scenario of the specification: both
    steps complete; the edit call of step 2 fails after step 1 has completed;
    the planning call answers with an empty array. *)
Lemma results_grow_one_entry_per_step_witness :
  imageFile (app Sample.ready) = Some Sample.photo /\
  (length (restorationSteps (app (snd (run Sample.twoSteps Sample.ready)))) = 2 /\
   status (app (snd (run Sample.twoSteps Sample.ready))) = AppStatus.done) /\
  (length (restorationSteps (app (snd (run Sample.secondEditFails Sample.ready))))
     = 1 /\
   status (app (snd (run Sample.secondEditFails Sample.ready))) = AppStatus.error) /\
  (restorationSteps (app (snd (run Sample.emptyPlan Sample.ready))) = [] /\
   status (app (snd (run Sample.emptyPlan Sample.ready))) = AppStatus.error).
Proof.
  split; [reflexivity |]. split; [| split].
  - pose proof (@results_grow_one_entry_per_step
                  Sample.JSON_parse Sample.ToString_other
                  (Sample.scripted Sample.twoSteps)
                  Sample.ready Sample.photo
                  (fst (run Sample.twoSteps Sample.ready))
                  (snd (run Sample.twoSteps Sample.ready))
                  eq_refl (surjective_pairing _)) as (_ & _ & Hplan).
    assert (Hp : planningOf Sample.twoSteps Sample.photo Sample.ready
                 = (Returned (client, Sample.plan),
                    snd (planningOf Sample.twoSteps Sample.photo Sample.ready)))
      by (vm_compute; reflexivity).
    destruct (Hplan _ _ _ Hp) as (_ & _ & Hall & _).
    destruct (restore_loop Sample.ToString_other (Sample.scripted Sample.twoSteps)
                client "" 2 0 Sample.plan (Some previewURL) []
                (loop_start (snd (planningOf Sample.twoSteps Sample.photo
                                    Sample.ready))))
      as [[vars | e |] wl] eqn:Hloop;
      [| vm_compute in Hloop; discriminate Hloop ..].
    exact (Hall vars wl Hloop).
  - pose proof (@results_grow_one_entry_per_step
                  Sample.JSON_parse Sample.ToString_other
                  (Sample.scripted Sample.secondEditFails)
                  Sample.ready Sample.photo
                  (fst (run Sample.secondEditFails Sample.ready))
                  (snd (run Sample.secondEditFails Sample.ready))
                  eq_refl (surjective_pairing _)) as (_ & _ & Hplan).
    assert (Hp : planningOf Sample.secondEditFails Sample.photo Sample.ready
                 = (Returned (client, Sample.plan),
                    snd (planningOf Sample.secondEditFails Sample.photo
                           Sample.ready)))
      by (vm_compute; reflexivity).
    destruct (Hplan _ _ _ Hp) as (_ & _ & _ & Hfails).
    destruct (restore_loop Sample.ToString_other
                (Sample.scripted Sample.secondEditFails)
                client "" 2 0 (firstn 1 Sample.plan) (Some previewURL) []
                (loop_start (snd (planningOf Sample.secondEditFails Sample.photo
                                    Sample.ready))))
      as [[vars | e |] w1] eqn:Hloop;
      [| vm_compute in Hloop; discriminate Hloop ..].
    destruct (loop_body Sample.ToString_other
                (Sample.scripted Sample.secondEditFails)
                client "" 2 1
                (JObj [("step", JNum 2%float); ("goal", JStr "Colorize")])
                (fst vars) (snd vars) w1)
      as [[vars2 | e |] w2] eqn:Hbody;
      [ vm_compute in Hloop; inversion Hloop; subst vars w1;
        vm_compute in Hbody; discriminate Hbody
      | | vm_compute in Hloop; inversion Hloop; subst vars w1;
          vm_compute in Hbody; discriminate Hbody ].
    exact (Hfails (firstn 1 Sample.plan) _ [] vars w1 e w2 eq_refl Hloop Hbody).
  - pose proof (@results_grow_one_entry_per_step
                  Sample.JSON_parse Sample.ToString_other
                  (Sample.scripted Sample.emptyPlan)
                  Sample.ready Sample.photo
                  (fst (run Sample.emptyPlan Sample.ready))
                  (snd (run Sample.emptyPlan Sample.ready))
                  eq_refl (surjective_pairing _)) as (_ & Hfail & _).
    destruct (planningOf Sample.emptyPlan Sample.photo Sample.ready)
      as [[[ai plan] | e |] wp] eqn:Hp;
      [vm_compute in Hp; discriminate Hp | | vm_compute in Hp; discriminate Hp].
    exact (Hfail e wp eq_refl).
Defined.

(** The scenario of the specification: every step image goes back as PNG,
    although the uploaded file is a JPEG. *)
Lemma step_images_are_declared_png_witness :
  imageFile (app Sample.ready) = Some Sample.photo /\
  file_type Sample.photo = "image/jpeg" /\
  Forall (fun s => exists payload,
              afterImage s = JStr ("data:image/png;base64," ++ payload)%string)
         (restorationSteps (app (snd (run Sample.twoSteps Sample.ready)))) /\
  exists planning steps,
    requests (snd (run Sample.twoSteps Sample.ready)) =
      requests Sample.ready ++ planning ++ steps /\
    length planning <= 1 /\
    Forall (fun request =>
              declared_media_types request = [Some (file_type Sample.photo)])
           planning /\
    Forall (fun request =>
              declared_media_types request = [Some "image/png"]) steps.
Proof.
  split; [reflexivity |]. split; [reflexivity |].
  apply (@step_images_are_declared_png
           Sample.JSON_parse Sample.ToString_other
           (Sample.scripted Sample.twoSteps)
           Sample.ready Sample.photo
           (fst (run Sample.twoSteps Sample.ready))
           (snd (run Sample.twoSteps Sample.ready)));
    [reflexivity | apply surjective_pairing].
Defined.

(** The plan of the scenario numbers its steps 1 and 2, and so do the
    results. *)
Lemma step_numbers_follow_plan_witness :
  imageFile (app Sample.ready) = Some Sample.photo /\
  map stepNumber (restorationSteps (app (snd (run Sample.twoSteps Sample.ready))))
    = map plan_step_number
        (firstn (length (restorationSteps
                           (app (snd (run Sample.twoSteps Sample.ready)))))
                Sample.plan) /\
  increasing_from_1
    (map stepNumber (restorationSteps (app (snd (run Sample.twoSteps Sample.ready)))))
    = true.
Proof.
  split; [reflexivity |].
  pose proof (@step_numbers_follow_plan
                Sample.JSON_parse Sample.ToString_other
                (Sample.scripted Sample.twoSteps)
                Sample.ready Sample.photo
                (fst (run Sample.twoSteps Sample.ready))
                (snd (run Sample.twoSteps Sample.ready))
                client Sample.plan
                (snd (planningOf Sample.twoSteps Sample.photo Sample.ready))
                eq_refl (surjective_pairing _)) as Hsteps.
  assert (Hp : planningOf Sample.twoSteps Sample.photo Sample.ready
               = (Returned (client, Sample.plan),
                  snd (planningOf Sample.twoSteps Sample.photo Sample.ready)))
    by (vm_compute; reflexivity).
  destruct (Hsteps Hp) as (Hsame & Hinc).
  split; [exact Hsame | apply Hinc; vm_compute; reflexivity].
Defined.

(** C7 as stated fails: a plan that numbers its steps 2 and 1 runs to
    [done], and the published step numbers are 2 and 1. *)
Lemma published_step_numbers_not_increasing :
  status (app (snd (run Sample.swappedSteps Sample.ready))) = AppStatus.done /\
  map stepNumber (restorationSteps (app (snd (run Sample.swappedSteps Sample.ready))))
    = [JNum 2%float; JNum 1%float] /\
  increasing_from_1
    (map stepNumber
       (restorationSteps (app (snd (run Sample.swappedSteps Sample.ready)))))
    = false.
Proof. repeat split; vm_compute; reflexivity. Qed.


Local Abbreviation planCall answers :=
  (generateRestorationPlan Sample.JSON_parse (Sample.scripted answers)
     client Sample.photo "" Sample.ready).

(** The planning call of the scenario. *)
Lemma plan_returned_iff_nonempty_array_witness :
  reader_result Sample.photo = Some previewURL /\
  fst (planCall Sample.twoSteps) = Returned Sample.plan /\
  exists request,
    requests (snd (planCall Sample.twoSteps)) = requests Sample.ready ++ [request] /\
    forall response,
      Sample.scripted Sample.twoSteps client (requests Sample.ready) request
        = Returned response ->
      (forall plan,
          fst (planCall Sample.twoSteps) = Returned plan <->
          plan <> [] /\
          Sample.JSON_parse (response_text response) = inr (JArr plan)) /\
      ((forall plan,
           Sample.JSON_parse (response_text response) = inr (JArr plan) ->
           plan = []) ->
       fst (planCall Sample.twoSteps) = Threw planError).
Proof.
  split; [reflexivity |]. split; [vm_compute; reflexivity |].
  apply (@plan_returned_iff_nonempty_array
           Sample.JSON_parse (Sample.scripted Sample.twoSteps)
           client Sample.photo "" Sample.ready
           (fst (planCall Sample.twoSteps)) (snd (planCall Sample.twoSteps))
           previewURL);
    [reflexivity | apply surjective_pairing].
Defined.

(** C3 as stated fails: the response text is an array whose one element is
    an object without a step number and without a goal, and the planning
    operation returns it as the plan. *)
Lemma plan_with_malformed_step_is_returned :
  fst (planCall [Returned (Sample.textResponse "[{}]")]) = Returned [JObj []] /\
  forallb well_formed_PlanStep [JObj []] = false.
Proof. split; vm_compute; reflexivity. Qed.

Local Abbreviation promptCall answers :=
  (generateStepPrompt Sample.ToString_other (Sample.scripted answers)
     client (Some previewURL) (JStr "Colorize") "" Sample.ready).

(** A prompt call that is answered with a text in white space. *)
Lemma prompt_is_trimmed_response_text_witness :
  fst (promptCall [Returned (Sample.textResponse "  add color... ")])
    = Returned "add color..." /\
  (Some previewURL = None ->
   fst (promptCall [Returned (Sample.textResponse "  add color... ")])
     = Threw (TypeError "Cannot read properties of null (reading 'split')") /\
   snd (promptCall [Returned (Sample.textResponse "  add color... ")])
     = Sample.ready) /\
  (forall image e,
      Some previewURL = Some image ->
      ToString Sample.ToString_other (JStr "Colorize") = inl e ->
      fst (promptCall [Returned (Sample.textResponse "  add color... ")])
        = Threw e /\
      snd (promptCall [Returned (Sample.textResponse "  add color... ")])
        = Sample.ready) /\
  (forall image goalText,
      Some previewURL = Some image ->
      ToString Sample.ToString_other (JStr "Colorize") = inr goalText ->
      snd (promptCall [Returned (Sample.textResponse "  add color... ")])
        = send [promptRequest image goalText ""] Sample.ready /\
      match Sample.scripted [Returned (Sample.textResponse "  add color... ")]
              client (requests Sample.ready) (promptRequest image goalText "")
      with
      | Returned response =>
          (forall prompt,
              fst (promptCall [Returned (Sample.textResponse "  add color... ")])
                = Returned prompt <->
              exists t, resp_text response = Some t /\ prompt = JsString.trim t) /\
          (resp_text response = None ->
           fst (promptCall [Returned (Sample.textResponse "  add color... ")])
             = Threw (TypeError
                        "Cannot read properties of undefined (reading 'trim')"))
      | Threw e =>
          fst (promptCall [Returned (Sample.textResponse "  add color... ")])
            = Threw e
      | Pending =>
          fst (promptCall [Returned (Sample.textResponse "  add color... ")])
            = Pending
      end).
Proof.
  split; [vm_compute; reflexivity |].
  apply (@prompt_is_trimmed_response_text
           Sample.ToString_other
           (Sample.scripted [Returned (Sample.textResponse "  add color... ")])
           client (Some previewURL) (JStr "Colorize") "" Sample.ready
           (fst (promptCall [Returned (Sample.textResponse "  add color... ")]))
           (snd (promptCall [Returned (Sample.textResponse "  add color... ")]))).
  apply surjective_pairing.
Defined.

(** C4 as stated fails: for a response whose text is empty, and for one whose
    text is blank, the prompt operation returns the empty string. *)
Lemma empty_response_yields_empty_prompt :
  fst (promptCall [Returned (Sample.textResponse "")]) = Returned "" /\
  fst (promptCall [Returned (Sample.textResponse "   ")]) = Returned "".
Proof. split; vm_compute; reflexivity. Qed.

Local Abbreviation editCall answers :=
  (executeImageStep (Sample.scripted answers)
     client (Some previewURL) "fix scratches..." Sample.ready).



(** A run without an API key. *)
Lemma missing_api_key_fails_inside_run_witness :
  imageFile (app Sample.unconfigured) = Some Sample.photo /\
  aiRef Sample.unconfigured = None /\
  falsy (API_KEY Sample.unconfigured) = true /\
  fst (run Sample.twoSteps Sample.unconfigured) = Returned tt /\
  trace (snd (run Sample.twoSteps Sample.unconfigured)) =
    trace Sample.unconfigured
    ++ [SetStatus AppStatus.idle; SetError None;
        SetRestorationSteps []; SetProgressMessage "";
        SetStatus AppStatus.planning;
        SetProgressMessage "Generating restoration plan...";
        SetError (Some "API_KEY environment variable not set");
        SetStatus AppStatus.error] /\
  status (app (snd (run Sample.twoSteps Sample.unconfigured))) = AppStatus.error /\
  error (app (snd (run Sample.twoSteps Sample.unconfigured)))
    = Some "API_KEY environment variable not set" /\
  restorationSteps (app (snd (run Sample.twoSteps Sample.unconfigured))) = [] /\
  requests (snd (run Sample.twoSteps Sample.unconfigured))
    = requests Sample.unconfigured.
Proof.
  split; [reflexivity |]. split; [reflexivity |]. split; [reflexivity |].
  apply (@missing_api_key_fails_inside_run
           Sample.JSON_parse Sample.ToString_other
           (Sample.scripted Sample.twoSteps)
           Sample.unconfigured Sample.photo);
    reflexivity.
Defined.

(** C6 as stated fails: without an API key, a run that starts from the idle
    status sets the status to [planning] before it reports the error, and
    ends in the status [error], not [idle]. *)
Lemma run_without_api_key_leaves_idle :
  API_KEY Sample.unconfigured = None /\
  status (app Sample.unconfigured) = AppStatus.idle /\
  trace (snd (run Sample.twoSteps Sample.unconfigured)) =
    [SetStatus AppStatus.idle; SetError None;
     SetRestorationSteps []; SetProgressMessage "";
     SetStatus AppStatus.planning;
     SetProgressMessage "Generating restoration plan...";
     SetError (Some "API_KEY environment variable not set");
     SetStatus AppStatus.error] /\
  status (app (snd (run Sample.twoSteps Sample.unconfigured))) = AppStatus.error /\
  status (app (snd (run Sample.twoSteps Sample.unconfigured))) <> AppStatus.idle.
Proof.
  split; [reflexivity |]. split; [reflexivity |].
  split; [vm_compute; reflexivity |].
  split; [vm_compute; reflexivity |].
  vm_compute. discriminate.
Qed.

(* ================================================================== *)
(** ** The further properties on concrete runs *)
(* ================================================================== *)

Local Abbreviation planned answers :=
  (snd (planningOf answers Sample.photo Sample.ready)).

Local Abbreviation firstStep :=
  (JObj [("step", JNum 1%float); ("goal", JStr "Remove scratches")]).

(** The client that the first call has built is returned again, whatever the
    key has become. *)
Lemma getAiClient_caches_the_client_witness :
  getAiClient Sample.ready = (Returned client, snd (getAiClient Sample.ready)) /\
  forall key,
    getAiClient (with_API_KEY key (snd (getAiClient Sample.ready))) =
      (Returned client, with_API_KEY key (snd (getAiClient Sample.ready))).
Proof.
  split; [reflexivity |].
  apply (@getAiClient_caches_the_client Sample.ready client
           (snd (getAiClient Sample.ready))).
  reflexivity.
Defined.

Lemma run_leaves_inputs_unchanged_witness :
  imageFile (app (snd (run Sample.twoSteps Sample.ready)))
    = imageFile (app Sample.ready) /\
  imagePreview (app (snd (run Sample.twoSteps Sample.ready)))
    = imagePreview (app Sample.ready) /\
  userPrompt (app (snd (run Sample.twoSteps Sample.ready)))
    = userPrompt (app Sample.ready) /\
  API_KEY (snd (run Sample.twoSteps Sample.ready)) = API_KEY Sample.ready.
Proof.
  apply (@run_leaves_inputs_unchanged
           Sample.JSON_parse Sample.ToString_other
           (Sample.scripted Sample.twoSteps) Sample.ready
           (fst (run Sample.twoSteps Sample.ready))
           (snd (run Sample.twoSteps Sample.ready))).
  apply surjective_pairing.
Defined.

Lemma settled_run_is_done_or_error_witness :
  imageFile (app Sample.ready) = Some Sample.photo /\
  match fst (run Sample.secondEditFails Sample.ready) with
  | Returned _ =>
      (status (app (snd (run Sample.secondEditFails Sample.ready)))
         = AppStatus.done /\
       error (app (snd (run Sample.secondEditFails Sample.ready))) = None /\
       progressMessage (app (snd (run Sample.secondEditFails Sample.ready)))
         = "Restoration complete!") \/
      (status (app (snd (run Sample.secondEditFails Sample.ready)))
         = AppStatus.error /\
       exists message,
         error (app (snd (run Sample.secondEditFails Sample.ready)))
           = Some message /\ message <> "")
  | Threw _ => False
  | Pending =>
      (status (app (snd (run Sample.secondEditFails Sample.ready)))
         = AppStatus.planning \/
       status (app (snd (run Sample.secondEditFails Sample.ready)))
         = AppStatus.restoring) /\
      error (app (snd (run Sample.secondEditFails Sample.ready))) = None
  end.
Proof.
  split; [reflexivity |].
  apply (@settled_run_is_done_or_error
           Sample.JSON_parse Sample.ToString_other
           (Sample.scripted Sample.secondEditFails) Sample.ready Sample.photo
           (fst (run Sample.secondEditFails Sample.ready))
           (snd (run Sample.secondEditFails Sample.ready)));
    [reflexivity | apply surjective_pairing].
Defined.

(** The edit call of the second step answers without an image: the loop
    throws the error of [executeImageStep], and the run reports it. *)
Lemma failed_run_reports_its_error_witness :
  imageFile (app Sample.ready) = Some Sample.photo /\
  planningOf Sample.secondEditFails Sample.photo Sample.ready
    = (Returned (client, Sample.plan), planned Sample.secondEditFails) /\
  fst (restore_loop Sample.ToString_other (Sample.scripted Sample.secondEditFails)
         client "" 2 0 Sample.plan (Some previewURL) []
         (loop_start (planned Sample.secondEditFails)))
    = Threw (Error "Image generation failed or did not return an image.") /\
  status (app (snd (run Sample.secondEditFails Sample.ready))) = AppStatus.error /\
  console (snd (run Sample.secondEditFails Sample.ready))
    = console
        (snd (restore_loop Sample.ToString_other
                (Sample.scripted Sample.secondEditFails)
                client "" 2 0 Sample.plan (Some previewURL) []
                (loop_start (planned Sample.secondEditFails))))
      ++ [(None, Error "Image generation failed or did not return an image.")] /\
  error (app (snd (run Sample.secondEditFails Sample.ready)))
    = Some "Image generation failed or did not return an image.".
Proof.
  split; [reflexivity |].
  assert (Hp : planningOf Sample.secondEditFails Sample.photo Sample.ready
               = (Returned (client, Sample.plan), planned Sample.secondEditFails))
    by (vm_compute; reflexivity).
  split; [exact Hp |].
  assert (Hl : restore_loop Sample.ToString_other
                 (Sample.scripted Sample.secondEditFails)
                 client "" 2 0 Sample.plan (Some previewURL) []
                 (loop_start (planned Sample.secondEditFails))
               = (Threw (Error "Image generation failed or did not return an image."),
                  snd (restore_loop Sample.ToString_other
                         (Sample.scripted Sample.secondEditFails)
                         client "" 2 0 Sample.plan (Some previewURL) []
                         (loop_start (planned Sample.secondEditFails)))))
    by (vm_compute; reflexivity).
  split; [rewrite Hl; reflexivity |].
  pose proof (@failed_run_reports_its_error
                Sample.JSON_parse Sample.ToString_other
                (Sample.scripted Sample.secondEditFails) Sample.ready Sample.photo
                (fst (run Sample.secondEditFails Sample.ready))
                (snd (run Sample.secondEditFails Sample.ready))
                eq_refl (surjective_pairing _)) as (_ & Hloop & _).
  exact (Hloop _ _ _ _ _ Hp Hl).
Defined.

Lemma run_sets_statuses_in_lifecycle_order_witness :
  imageFile (app Sample.ready) = Some Sample.photo /\
  exists set,
    status_calls (trace (snd (run Sample.twoSteps Sample.ready)))
      = status_calls (trace Sample.ready) ++ set /\
    match fst (run Sample.twoSteps Sample.ready) with
    | Returned _ =>
        set = [AppStatus.idle; AppStatus.planning; AppStatus.restoring;
               AppStatus.done] \/
        set = [AppStatus.idle; AppStatus.planning; AppStatus.restoring;
               AppStatus.error] \/
        set = [AppStatus.idle; AppStatus.planning; AppStatus.error]
    | Threw _ => False
    | Pending =>
        set = [AppStatus.idle; AppStatus.planning] \/
        set = [AppStatus.idle; AppStatus.planning; AppStatus.restoring]
    end.
Proof.
  split; [reflexivity |].
  apply (@run_sets_statuses_in_lifecycle_order
           Sample.JSON_parse Sample.ToString_other
           (Sample.scripted Sample.twoSteps) Sample.ready Sample.photo
           (fst (run Sample.twoSteps Sample.ready))
           (snd (run Sample.twoSteps Sample.ready)));
    [reflexivity | apply surjective_pairing].
Defined.

Lemma results_never_exceed_plan_witness :
  imageFile (app Sample.ready) = Some Sample.photo /\
  planningOf Sample.secondEditFails Sample.photo Sample.ready
    = (Returned (client, Sample.plan), planned Sample.secondEditFails) /\
  length (restorationSteps (app (snd (run Sample.secondEditFails Sample.ready))))
    <= length Sample.plan /\
  exists new,
    published (trace (snd (run Sample.secondEditFails Sample.ready)))
      = published (trace Sample.ready) ++ new /\
    Forall (fun results => length results <= length Sample.plan) new.
Proof.
  split; [reflexivity |].
  assert (Hp : planningOf Sample.secondEditFails Sample.photo Sample.ready
               = (Returned (client, Sample.plan), planned Sample.secondEditFails))
    by (vm_compute; reflexivity).
  split; [exact Hp |].
  exact (@results_never_exceed_plan
           Sample.JSON_parse Sample.ToString_other
           (Sample.scripted Sample.secondEditFails) Sample.ready Sample.photo
           (fst (run Sample.secondEditFails Sample.ready))
           (snd (run Sample.secondEditFails Sample.ready))
           client Sample.plan (planned Sample.secondEditFails)
           eq_refl (surjective_pairing _) Hp).
Defined.

Lemma run_sends_one_plus_two_requests_per_step_witness :
  imageFile (app Sample.ready) = Some Sample.photo /\
  exists added,
    requests (snd (run Sample.twoSteps Sample.ready))
      = requests Sample.ready ++ added /\
    (forall ai plan wp,
        planningOf Sample.twoSteps Sample.photo Sample.ready
          = (Returned (ai, plan), wp) ->
        length added <= 1 + 2 * length plan /\
        (status (app (snd (run Sample.twoSteps Sample.ready))) = AppStatus.done ->
         map model added =
           "gemini-2.5-pro"
             :: flat_map (fun _ => ["gemini-2.5-pro"; "gemini-2.5-flash-image"])
                  plan)) /\
    (forall e wp,
        planningOf Sample.twoSteps Sample.photo Sample.ready = (Threw e, wp) ->
        length added <= 1).
Proof.
  split; [reflexivity |].
  apply (@run_sends_one_plus_two_requests_per_step
           Sample.JSON_parse Sample.ToString_other
           (Sample.scripted Sample.twoSteps) Sample.ready Sample.photo
           (fst (run Sample.twoSteps Sample.ready))
           (snd (run Sample.twoSteps Sample.ready)));
    [reflexivity | apply surjective_pairing].
Defined.

(** The first step of the scenario. *)
Lemma completed_step_matches_its_requests_witness :
  exists vars w',
    loop_body Sample.ToString_other (Sample.scripted Sample.twoSteps)
      client "" 2 0 firstStep (Some previewURL) []
      (loop_start (planned Sample.twoSteps)) = (Returned vars, w') /\
    exists image goal goalText prompt entry,
      get_property firstStep "goal" = inr goal /\
      ToString Sample.ToString_other goal = inr goalText /\
      requests w' =
        requests (loop_start (planned Sample.twoSteps))
        ++ [promptRequest image goalText ""; editRequest image prompt] /\
      snd vars = [] ++ [entry] /\
      beforeImage entry = JStr image /\
      Obj.get "prompt" entry = JStr prompt /\
      fst vars = match afterImage entry with
                 | JStr newImage => Some newImage
                 | _ => None
                 end.
Proof.
  destruct (loop_body Sample.ToString_other (Sample.scripted Sample.twoSteps)
              client "" 2 0 firstStep (Some previewURL) []
              (loop_start (planned Sample.twoSteps)))
    as [[vars | e |] w'] eqn:Hbody;
    [| vm_compute in Hbody; discriminate Hbody ..].
  exists vars, w'. split; [reflexivity |].
  exact (@completed_step_matches_its_requests
           Sample.ToString_other (Sample.scripted Sample.twoSteps)
           client "" 2 0 firstStep (Some previewURL) []
           (loop_start (planned Sample.twoSteps)) vars w' Hbody).
Defined.

Lemma entries_keep_plan_fields_witness :
  imageFile (app Sample.ready) = Some Sample.photo /\
  planningOf Sample.twoSteps Sample.photo Sample.ready
    = (Returned (client, Sample.plan), planned Sample.twoSteps) /\
  forall i s props,
    nth_error (restorationSteps (app (snd (run Sample.twoSteps Sample.ready)))) i
      = Some s ->
    nth_error Sample.plan i = Some (JObj props) ->
    (forall k,
        String.eqb k "prompt" = false ->
        String.eqb k "beforeImage" = false ->
        String.eqb k "afterImage" = false ->
        Obj.get k s = Obj.get k props) /\
    exists prompt before after,
      Obj.get "prompt" s = JStr prompt /\
      beforeImage s = JStr before /\
      afterImage s = JStr after.
Proof.
  split; [reflexivity |].
  assert (Hp : planningOf Sample.twoSteps Sample.photo Sample.ready
               = (Returned (client, Sample.plan), planned Sample.twoSteps))
    by (vm_compute; reflexivity).
  split; [exact Hp |].
  exact (@entries_keep_plan_fields
           Sample.JSON_parse Sample.ToString_other
           (Sample.scripted Sample.twoSteps) Sample.ready Sample.photo
           (fst (run Sample.twoSteps Sample.ready))
           (snd (run Sample.twoSteps Sample.ready))
           client Sample.plan (planned Sample.twoSteps)
           eq_refl (surjective_pairing _) Hp).
Defined.

Lemma edited_image_round_trip_witness :
  fst (editCall [Returned (Sample.imageResponse "QUJD")])
    = Returned "data:image/png;base64,QUJD" /\
  comma_free "QUJD" = true /\
  exists payload,
    "data:image/png;base64,QUJD" = ("data:image/png;base64," ++ payload)%string /\
    (comma_free payload = true ->
     base64ToGenerativePart (Some "data:image/png;base64,QUJD") None =
       inr (mkPart None (Some (mkBlob (Some payload) (Some "image/png"))))).
Proof.
  split; [vm_compute; reflexivity |]. split; [reflexivity |].
  apply (@edited_image_round_trip
           (Sample.scripted [Returned (Sample.imageResponse "QUJD")])
           client (Some previewURL) "fix scratches..." Sample.ready
           "data:image/png;base64,QUJD"
           (snd (editCall [Returned (Sample.imageResponse "QUJD")]))).
  vm_compute; reflexivity.
Defined.

Lemma unreadable_file_leaves_run_pending_witness :
  imageFile (app Sample.unreadablePicked) = Some Sample.unreadable /\
  reader_result Sample.unreadable = None /\
  falsy (API_KEY Sample.unreadablePicked) = false /\
  fst (run Sample.twoSteps Sample.unreadablePicked) = Pending /\
  status (app (snd (run Sample.twoSteps Sample.unreadablePicked)))
    = AppStatus.planning /\
  progressMessage (app (snd (run Sample.twoSteps Sample.unreadablePicked)))
    = "Generating restoration plan..." /\
  error (app (snd (run Sample.twoSteps Sample.unreadablePicked))) = None /\
  restorationSteps (app (snd (run Sample.twoSteps Sample.unreadablePicked))) = [] /\
  requests (snd (run Sample.twoSteps Sample.unreadablePicked))
    = requests Sample.unreadablePicked /\
  console (snd (run Sample.twoSteps Sample.unreadablePicked))
    = console Sample.unreadablePicked.
Proof.
  split; [reflexivity |]. split; [reflexivity |]. split; [reflexivity |].
  apply (@unreadable_file_leaves_run_pending
           Sample.JSON_parse Sample.ToString_other
           (Sample.scripted Sample.twoSteps)
           Sample.unreadablePicked Sample.unreadable);
    [reflexivity | reflexivity | right; reflexivity].
Defined.

Lemma run_without_preview_fails_at_first_step_witness :
  imageFile (app Sample.noPreview) = Some Sample.photo /\
  imagePreview (app Sample.noPreview) = None /\
  planningOf Sample.twoSteps Sample.photo Sample.noPreview
    = (Returned (client, Sample.plan),
       snd (planningOf Sample.twoSteps Sample.photo Sample.noPreview)) /\
  fst (run Sample.twoSteps Sample.noPreview) = Returned tt /\
  status (app (snd (run Sample.twoSteps Sample.noPreview))) = AppStatus.error /\
  restorationSteps (app (snd (run Sample.twoSteps Sample.noPreview))) = [] /\
  requests (snd (run Sample.twoSteps Sample.noPreview))
    = requests (snd (planningOf Sample.twoSteps Sample.photo Sample.noPreview)) /\
  exists request,
    requests (snd (planningOf Sample.twoSteps Sample.photo Sample.noPreview))
      = requests Sample.noPreview ++ [request].
Proof.
  split; [reflexivity |]. split; [reflexivity |].
  assert (Hp : planningOf Sample.twoSteps Sample.photo Sample.noPreview
               = (Returned (client, Sample.plan),
                  snd (planningOf Sample.twoSteps Sample.photo Sample.noPreview)))
    by (vm_compute; reflexivity).
  split; [exact Hp |].
  exact (@run_without_preview_fails_at_first_step
           Sample.JSON_parse Sample.ToString_other
           (Sample.scripted Sample.twoSteps) Sample.noPreview Sample.photo
           (fst (run Sample.twoSteps Sample.noPreview))
           (snd (run Sample.twoSteps Sample.noPreview))
           client Sample.plan
           (snd (planningOf Sample.twoSteps Sample.photo Sample.noPreview))
           eq_refl eq_refl (surjective_pairing _) Hp).
Defined.

Local Abbreviation repicked :=
  (snd (handleFileChange (Some Sample.second) Sample.ready)).


Lemma start_over_then_restore_does_nothing_witness :
  handleStartOver Sample.ready = (Returned tt, snd (handleStartOver Sample.ready)) /\
  run Sample.twoSteps (snd (handleStartOver Sample.ready))
    = (Returned tt, snd (handleStartOver Sample.ready)) /\
  imageFile (app (snd (handleStartOver Sample.ready))) = None /\
  imagePreview (app (snd (handleStartOver Sample.ready))) = None /\
  userPrompt (app (snd (handleStartOver Sample.ready))) = "" /\
  restoreButton (render (app (snd (handleStartOver Sample.ready)))) = None /\
  startOverButton (render (app (snd (handleStartOver Sample.ready)))) = false /\
  stepCardList (render (app (snd (handleStartOver Sample.ready)))) = [] /\
  placeholder (render (app (snd (handleStartOver Sample.ready)))) = true.
Proof.
  split; [reflexivity |].
  apply (@start_over_then_restore_does_nothing
           Sample.JSON_parse Sample.ToString_other
           (Sample.scripted Sample.twoSteps)
           Sample.ready (Returned tt) (snd (handleStartOver Sample.ready))).
  reflexivity.
Defined.

Lemma returned_run_offers_only_start_over_witness :
  imageFile (app Sample.ready) = Some Sample.photo /\
  fst (run Sample.twoSteps Sample.ready) = Returned tt /\
  restoreButton (render (app (snd (run Sample.twoSteps Sample.ready)))) = None /\
  startOverButton (render (app (snd (run Sample.twoSteps Sample.ready)))) = true /\
  processingPanel (render (app (snd (run Sample.twoSteps Sample.ready)))) = None /\
  fileInputDisabled (render (app (snd (run Sample.twoSteps Sample.ready))))
    = false /\
  promptDisabled (render (app (snd (run Sample.twoSteps Sample.ready)))) = false /\
  placeholder (render (app (snd (run Sample.twoSteps Sample.ready)))) = false /\
  errorBanner (render (app (snd (run Sample.twoSteps Sample.ready))))
    = error (app (snd (run Sample.twoSteps Sample.ready))) /\
  (errorBanner (render (app (snd (run Sample.twoSteps Sample.ready)))) = None <->
   status (app (snd (run Sample.twoSteps Sample.ready))) = AppStatus.done).
Proof.
  split; [reflexivity |]. split; [vm_compute; reflexivity |].
  apply (@returned_run_offers_only_start_over
           Sample.JSON_parse Sample.ToString_other
           (Sample.scripted Sample.twoSteps) Sample.ready Sample.photo
           (snd (run Sample.twoSteps Sample.ready)));
    [reflexivity | vm_compute; reflexivity].
Defined.

Lemma generated_prompt_is_trimmed_witness :
  fst (promptCall [Returned (Sample.textResponse "  add color... ")])
    = Returned "add color..." /\
  trimmed "add color..." = true.
Proof.
  split; [vm_compute; reflexivity |].
  apply (@generated_prompt_is_trimmed
           Sample.ToString_other
           (Sample.scripted [Returned (Sample.textResponse "  add color... ")])
           client (Some previewURL) (JStr "Colorize") "" Sample.ready
           "add color..."
           (snd (promptCall [Returned (Sample.textResponse "  add color... ")]))).
  vm_compute; reflexivity.
Defined.

Lemma loop_reports_only_progress_and_results_witness :
  imageFile (app Sample.ready) = Some Sample.photo /\
  planningOf Sample.twoSteps Sample.photo Sample.ready
    = (Returned (client, Sample.plan), planned Sample.twoSteps) /\
  exists calls ending,
    trace (snd (run Sample.twoSteps Sample.ready)) =
      trace Sample.ready
      ++ [SetStatus AppStatus.idle; SetError None; SetRestorationSteps [];
          SetProgressMessage ""; SetStatus AppStatus.planning;
          SetProgressMessage "Generating restoration plan...";
          SetStatus AppStatus.restoring]
      ++ calls ++ ending /\
    Forall (loop_call (length Sample.plan)) calls /\
    (ending = [] \/
     ending = [SetStatus AppStatus.done;
               SetProgressMessage "Restoration complete!"] \/
     exists message,
       ending = [SetError (Some message); SetStatus AppStatus.error]).
Proof.
  split; [reflexivity |].
  assert (Hp : planningOf Sample.twoSteps Sample.photo Sample.ready
               = (Returned (client, Sample.plan), planned Sample.twoSteps))
    by (vm_compute; reflexivity).
  split; [exact Hp |].
  exact (@loop_reports_only_progress_and_results
           Sample.JSON_parse Sample.ToString_other
           (Sample.scripted Sample.twoSteps) Sample.ready Sample.photo
           (fst (run Sample.twoSteps Sample.ready))
           (snd (run Sample.twoSteps Sample.ready))
           client Sample.plan (planned Sample.twoSteps)
           eq_refl (surjective_pairing _) Hp).
Defined.

(** The way to the state in which C1 fails: the user picks [photo], its
    preview loads, and the user picks [second]. *)
Local Abbreviation photoLoaded :=
  (snd (reader_onloadend Sample.photo
          (snd (handleFileChange (Some Sample.photo) Sample.empty)))).

Local Abbreviation secondPicked :=
  (snd (handleFileChange (Some Sample.second) photoLoaded)).

(** C1 at its failing input.  The run is started after [second] has been
    picked and before its preview has loaded.  It plans with [second] (the
    planning request carries the PNG), completes with status [done], and its
    first entry starts from the data URL of [photo], the file picked before,
    which is not the uploaded image; the chaining of adjacent entries
    holds. *)
Theorem run_on_stale_preview_starts_from_previous_file :
  imageFile (app secondPicked) = Some Sample.second /\
  reader_result Sample.second = Some "data:image/png;base64,iVBORw0KGgo=" /\
  imagePreview (app secondPicked) = reader_result Sample.photo /\
  restoreButton (render (app secondPicked)) = Some false /\
  status (app (snd (run Sample.twoSteps secondPicked))) = AppStatus.done /\
  map contents (firstn 1 (requests (snd (run Sample.twoSteps secondPicked)))) =
    [[textPart (planPrompt "");
      mkPart None (Some (mkBlob (Some "iVBORw0KGgo=") (Some "image/png")))]] /\
  map beforeImage (restorationSteps (app (snd (run Sample.twoSteps secondPicked))))
    = [JStr "data:image/jpeg;base64,/9j/4AAQSkZJRg==";
       JStr "data:image/png;base64,QUJD"] /\
  map afterImage (restorationSteps (app (snd (run Sample.twoSteps secondPicked))))
    = [JStr "data:image/png;base64,QUJD"; JStr "data:image/png;base64,REVG"] /\
  hd_error (map beforeImage
              (restorationSteps (app (snd (run Sample.twoSteps secondPicked)))))
    <> Some (JStr "data:image/png;base64,iVBORw0KGgo=").
Proof.
  split; [reflexivity |]. split; [reflexivity |]. split; [reflexivity |].
  split; [reflexivity |].
  split; [vm_compute; reflexivity |]. split; [vm_compute; reflexivity |].
  split; [vm_compute; reflexivity |]. split; [vm_compute; reflexivity |].
  vm_compute. discriminate.
Qed.
